(** * Snapshot archive of [scripts/prepare_db_snapshots.py]

    A shallow embedding of the snapshot script: the framing of one record
    ([optimize_and_dump]), the reader that picks the latest record
    ([restore_latest]) and the command line entry point ([main]).

    Python values are modelled as follows.
    - A [str] is the list of its code points; [bytes] is the list of its
      byte values.  Both are lists of [N].
    - A [Path] is its string form; the file system is a finite map from
      absolute path strings to file contents.
    - Calls that leave the program (SQLite, the [sqlite3] command, the
      clock, the operating system) take their outcome from an [Oracle]. *)

From Stdlib Require Import ZArith NArith List String Ascii Bool Lia.
From Stdlib Require Import Decimal DecimalString DecimalPos DecimalZ.
From stdpp Require Import base option list gmap.
Import ListNotations.

Local Open Scope N_scope.

(** ** Strings *)

Abbreviation str := (list N).
Abbreviation bytes := (list N).

(** A literal of the source, as the list of its code points. *)
Definition lit (s : string) : list N :=
  map N_of_ascii (list_ascii_of_string s).

Definition LF : N := 10.

(** [str.isspace] for one code point: the white space of the Unicode
    database, which is what [str.strip()] removes. *)
Definition py_isspace (c : N) : bool :=
  ((9 <=? c) && (c <=? 13)) || ((28 <=? c) && (c <=? 32))
  || (c =? 133) || (c =? 160) || (c =? 5760)
  || ((8192 <=? c) && (c <=? 8202))
  || (c =? 8232) || (c =? 8233) || (c =? 8239) || (c =? 8287)
  || (c =? 12288).

Fixpoint lstrip (s : str) : str :=
  match s with
  | c :: r => if py_isspace c then lstrip r else s
  | [] => []
  end.

Definition rstrip (s : str) : str := rev (lstrip (rev s)).

(** [s.strip()] *)
Definition strip (s : str) : str := rstrip (lstrip s).

(** [s.startswith(p)] *)
Fixpoint startswith (s p : str) : bool :=
  match p, s with
  | [], _ => true
  | _ :: _, [] => false
  | a :: p', b :: s' => (a =? b) && startswith s' p'
  end.

(** [s.split('\n')]: never empty, the last element is what follows the
    last line feed. *)
Fixpoint split_nl (s : str) : list str :=
  match s with
  | [] => [[]]
  | c :: r =>
      if c =? LF then [] :: split_nl r
      else match split_nl r with
           | l :: ls => (c :: l) :: ls
           | [] => [[c]]
           end
  end.

(** ['\n'.join(ls)] *)
Fixpoint join_nl (ls : list str) : str :=
  match ls with
  | [] => []
  | [l] => l
  | l :: ls' => l ++ LF :: join_nl ls'
  end.

(** ** The Archive Reader: the text part of [restore_latest] *)

(** The test of line 136: [line.strip().startswith('{')]. *)
Definition is_json_line (line : str) : bool :=
  startswith (strip line) (lit "{").

(** Lines 134-137: the indices [i] of [enumerate(lines)] whose line passes
    the test, in increasing order; [i] is the index of the first line. *)
Fixpoint json_line_indices_from (i : nat) (lines : list str) : list nat :=
  match lines with
  | [] => []
  | line :: rest =>
      if is_json_line line then i :: json_line_indices_from (S i) rest
      else json_line_indices_from (S i) rest
  end.

Definition json_line_indices (lines : list str) : list nat :=
  json_line_indices_from 0 lines.

(** Lines 131-147: the value of [sql_dump] for a decoded [content]. *)
Definition sql_dump_of (content : str) : str :=
  let lines := split_nl content in
  match last (json_line_indices lines) with
  | Some last_json_idx =>
      let sql_lines := skipn (last_json_idx + 1)%nat lines in
      join_nl sql_lines
  | None => content
  end.

(** ** The Metadata Framer: [json.dumps] on the metadata dictionary *)

(** The values a metadata dictionary holds. *)
Inductive jvalue :=
| JInt (z : Z)
| JStr (s : str).

(** [repr] of a Python [int]: decimal digits, a minus sign when negative. *)
Definition int_repr (z : Z) : str :=
  lit (NilZero.string_of_int (Z.to_int z)).

(** One lower-case hexadecimal digit, for [d < 16]. *)
Definition hex_digit (d : N) : N :=
  if d <? 10 then 48 + d else 87 + d.

(** ['\\u{0:04x}'.format(n)] for [n < 0x10000]. *)
Definition u_escape (n : N) : str :=
  [92; 117; hex_digit (n / 4096 mod 16); hex_digit (n / 256 mod 16);
   hex_digit (n / 16 mod 16); hex_digit (n mod 16)].

(** The replacement of one code point by [json.encoder]'s
    [py_encode_basestring_ascii]: everything outside [' '..'~'], the
    quote and the backslash are escaped; a code point above [0xFFFF]
    becomes a surrogate pair. *)
Definition escape_char (c : N) : str :=
  if c =? 92 then [92; 92]
  else if c =? 34 then [92; 34]
  else if (32 <=? c) && (c <=? 126) then [c]
  else if c =? 8 then [92; 98]
  else if c =? 12 then [92; 102]
  else if c =? 10 then [92; 110]
  else if c =? 13 then [92; 114]
  else if c =? 9 then [92; 116]
  else if c <? 65536 then u_escape c
  else
    let n := c - 65536 in
    u_escape (N.lor 55296 (N.land (N.shiftr n 10) 1023))
    ++ u_escape (N.lor 56320 (N.land n 1023)).

Definition escape_body (s : str) : str := flat_map escape_char s.

(** [encode_basestring_ascii(s)] *)
Definition encode_basestring_ascii (s : str) : str :=
  34 :: escape_body s ++ [34].

Definition json_value (v : jvalue) : str :=
  match v with
  | JInt z => int_repr z
  | JStr s => encode_basestring_ascii s
  end.

(** The members of a dictionary with [separators=(',', ':')]. *)
Fixpoint json_members (items : list (str * jvalue)) : str :=
  match items with
  | [] => []
  | [(k, v)] => encode_basestring_ascii k ++ 58 :: json_value v
  | (k, v) :: rest =>
      encode_basestring_ascii k ++ 58 :: json_value v ++ 44 :: json_members rest
  end.

(** [json.dumps(d, separators=(',', ':'))] for a flat dictionary [d], its
    items in insertion order. *)
Definition json_dumps (items : list (str * jvalue)) : str :=
  123 :: json_members items ++ [125].

(** Lines 83-87: the metadata dictionary. *)
Definition metadata (timestamp : Z) (source : str) (size : Z)
  : list (str * jvalue) :=
  [ (lit "timestamp", JInt timestamp);
    (lit "source", JStr source);
    (lit "size_before_optimization", JInt size) ].

(** Line 88: [metadata_line]. *)
Definition metadata_line (timestamp : Z) (source : str) (size : Z) : str :=
  json_dumps (metadata timestamp source size) ++ [LF].

(** [s.encode('utf-8')]; a surrogate cannot be encoded
    ([UnicodeEncodeError]). *)
Definition utf8_char (c : N) : option bytes :=
  if c <? 128 then Some [c]
  else if c <? 2048 then Some [192 + c / 64; 128 + c mod 64]
  else if (55296 <=? c) && (c <=? 57343) then None
  else if c <? 65536 then
    Some [224 + c / 4096; 128 + (c / 64) mod 64; 128 + c mod 64]
  else
    Some [240 + c / 262144; 128 + (c / 4096) mod 64;
          128 + (c / 64) mod 64; 128 + c mod 64].

Fixpoint encode_utf8 (s : str) : option bytes :=
  match s with
  | [] => Some []
  | c :: r =>
      match utf8_char c, encode_utf8 r with
      | Some b, Some bs => Some (b ++ bs)
      | _, _ => None
      end
  end.

(** ** Reading a metadata line back

    The script never reads a metadata line again ([restore_latest] only
    skips it); the reader below is what [json.loads] does on the flat
    dictionaries of the Framer. *)

Definition hex_val (c : N) : option N :=
  if (48 <=? c) && (c <=? 57) then Some (c - 48)
  else if (97 <=? c) && (c <=? 102) then Some (c - 87)
  else if (65 <=? c) && (c <=? 70) then Some (c - 55)
  else None.

(** [_decode_uXXXX]: the value of four hexadecimal digits. *)
Definition hex4 (a b c d : N) : option N :=
  match hex_val a, hex_val b, hex_val c, hex_val d with
  | Some x3, Some x2, Some x1, Some x0 =>
      Some (x3 * 4096 + x2 * 256 + x1 * 16 + x0)
  | _, _, _, _ => None
  end.

Definition is_high_surrogate (c : N) : bool := (55296 <=? c) && (c <=? 56319).
Definition is_low_surrogate (c : N) : bool := (56320 <=? c) && (c <=? 57343).

(** The character a one-letter escape stands for. *)
Definition unescape (e : N) : option N :=
  if e =? 34 then Some 34
  else if e =? 92 then Some 92
  else if e =? 47 then Some 47
  else if e =? 98 then Some 8
  else if e =? 102 then Some 12
  else if e =? 110 then Some 10
  else if e =? 114 then Some 13
  else if e =? 116 then Some 9
  else None.

Definition cons_scanned (c : N) (r : option (str * str)) : option (str * str) :=
  match r with
  | Some (s, rest) => Some (c :: s, rest)
  | None => None
  end.

(** [py_scanstring] after the opening quote: the decoded string and what
    follows the closing quote.  A high surrogate escape directly followed
    by a low surrogate escape is one code point. *)
Fixpoint scanstring (s : str) : option (str * str) :=
  match s with
  | [] => None
  | c :: r =>
      if c =? 34 then Some ([], r)
      else if c =? 92 then
        match r with
        | [] => None
        | e :: r1 =>
            if e =? 117 then
              match r1 with
              | a :: b :: c1 :: d :: r2 =>
                  match hex4 a b c1 d with
                  | None => None
                  | Some uni =>
                      if is_high_surrogate uni then
                        match r2 with
                        | x :: y :: a2 :: b2 :: c2 :: d2 :: r3 =>
                            if (x =? 92) && (y =? 117) then
                              match hex4 a2 b2 c2 d2 with
                              | None => None
                              | Some uni2 =>
                                  if is_low_surrogate uni2 then
                                    cons_scanned
                                      (65536 + N.lor (N.shiftl (uni - 55296) 10)
                                                     (uni2 - 56320))
                                      (scanstring r3)
                                  else cons_scanned uni (scanstring r2)
                              end
                            else cons_scanned uni (scanstring r2)
                        | _ => cons_scanned uni (scanstring r2)
                        end
                      else cons_scanned uni (scanstring r2)
                  end
              | _ => None
              end
            else
              match unescape e with
              | Some ch => cons_scanned ch (scanstring r1)
              | None => None
              end
        end
      else if c <? 32 then None
      else cons_scanned c (scanstring r)
  end.

Definition is_number_char (c : N) : bool :=
  (c =? 45) || ((48 <=? c) && (c <=? 57)).

(** The longest prefix of sign and digits, and the rest. *)
Fixpoint span_number (s : str) : str * str :=
  match s with
  | c :: r =>
      if is_number_char c
      then let '(tok, rest) := span_number r in (c :: tok, rest)
      else ([], s)
  | [] => ([], [])
  end.

Definition int_of_token (tok : str) : option Z :=
  Z.of_int <$> NilZero.int_of_string (string_of_list_ascii (map ascii_of_N tok)).

(** One value: a string or an integer. *)
Definition scan_value (s : str) : option (jvalue * str) :=
  match s with
  | c :: r =>
      if c =? 34 then
        match scanstring r with
        | Some (v, rest) => Some (JStr v, rest)
        | None => None
        end
      else
        let '(tok, rest) := span_number s in
        match int_of_token tok with
        | Some z => Some (JInt z, rest)
        | None => None
        end
  | [] => None
  end.

(** The members after the opening brace, up to the closing brace; the
    depth of the recursion is bounded by the number of members. *)
Fixpoint scan_members (fuel : nat) (s : str)
  : option (list (str * jvalue) * str) :=
  match fuel with
  | O => None
  | S fuel' =>
      match s with
      | c :: r =>
          if c =? 34 then
            match scanstring r with
            | Some (k, c2 :: r2) =>
                if c2 =? 58 then
                  match scan_value r2 with
                  | Some (v, c3 :: r3) =>
                      if c3 =? 125 then Some ([(k, v)], r3)
                      else if c3 =? 44 then
                        match scan_members fuel' r3 with
                        | Some (items, rest) => Some ((k, v) :: items, rest)
                        | None => None
                        end
                      else None
                  | _ => None
                  end
                else None
            | _ => None
            end
          else None
      | [] => None
      end
  end.

Definition json_whitespace (c : N) : bool :=
  (c =? 32) || (c =? 9) || (c =? 10) || (c =? 13).

(** [json.loads] on a flat dictionary; only white space may follow. *)
Definition json_loads (s : str) : option (list (str * jvalue)) :=
  match s with
  | c :: r =>
      if c =? 123 then
        match r with
        | c2 :: r2 =>
            if c2 =? 125
            then if forallb json_whitespace r2 then Some [] else None
            else
              match scan_members (length r) r with
              | Some (items, rest) =>
                  if forallb json_whitespace rest then Some items else None
              | None => None
              end
        | [] => None
        end
      else None
  | [] => None
  end.

(** [d[key]]: the value of the last item with that key. *)
Fixpoint dict_get (key : str) (items : list (str * jvalue)) : option jvalue :=
  match items with
  | [] => None
  | (k, v) :: rest =>
      match dict_get key rest with
      | Some v' => Some v'
      | None => if decide (k = key) then Some v else None
      end
  end.

(** The three fields of a metadata line. *)
Record Metadata := {
  timestamp : Z;
  source : str;
  size_before_optimization : Z
}.

Definition parse_metadata_line (line : str) : option Metadata :=
  match json_loads line with
  | Some d =>
      match dict_get (lit "timestamp") d, dict_get (lit "source") d,
            dict_get (lit "size_before_optimization") d with
      | Some (JInt t), Some (JStr s), Some (JInt n) =>
          Some {| timestamp := t; source := s; size_before_optimization := n |}
      | _, _, _ => None
      end
  | None => None
  end.

(** ** Paths *)

(** A [pathlib.Path], by its string form [str(p)]. *)
Abbreviation Path := (list N).

Definition SLASH : N := 47.
Definition DOT : N := 46.

(** [s.rfind(x)] *)
Fixpoint rfind (x : N) (s : str) : option nat :=
  match s with
  | [] => None
  | c :: r =>
      match rfind x r with
      | Some i => Some (S i)
      | None => if c =? x then Some O else None
      end
  end.

(** [p.name]: what follows the last separator. *)
Definition path_name (p : Path) : str :=
  match rfind SLASH p with
  | Some i => skipn (S i) p
  | None => p
  end.

(** [p.suffix]: from the last dot of the name, unless that dot is the
    first or the last character of the name. *)
Definition path_suffix (p : Path) : str :=
  let name := path_name p in
  match rfind DOT name with
  | Some i =>
      if ((0 <? i) && (i <? length name - 1))%nat then skipn i name else []
  | None => []
  end.

(** [p.with_suffix(suffix)]; [None] is the [ValueError] that pathlib raises
    for a path with an empty name. *)
Definition with_suffix (p : Path) (suffix : str) : option Path :=
  match path_name p with
  | [] => None
  | _ :: _ => Some (firstn (length p - length (path_suffix p)) p ++ suffix)
  end.

(** [root / name] for a relative [name]. *)
Definition joinpath (root : Path) (name : str) : Path :=
  match last root with
  | Some c => if c =? SLASH then root ++ name else root ++ SLASH :: name
  | None => name
  end.

(** The file a path string names when the working directory is [cwd]. *)
Definition abspath (cwd : str) (p : str) : str :=
  if startswith p [SLASH] then p else joinpath cwd p.

(** ** The world outside the script *)

Inductive Action := Created | Updated.

(** What the script prints and which external programs it drives. *)
Inductive Event :=
| RunDump (db : Path)                 (* line 79: [sqlite3 <db> .dump] is run *)
| PrintSnapshot (action : Action) (dump_name : str) (orig comp : Z)
                                      (* line 106, stdout *)
| PrintErrorDumping (db : Path)       (* line 109, stderr *)
| PrintUnexpected (db : Path)         (* line 111, stderr *)
| PrintNotFound (gz : Path)           (* line 124, stderr *)
| ExecuteScript (db : Path) (sql_dump : str)
                                      (* line 151: the script is replayed *)
| PrintRestored (db_name gz_name : str)
                                      (* line 154, stdout *)
| PrintErrorRestoring (db : Path)     (* line 158, stderr *)
| PrintUsage (argv0 : str)            (* lines 170-172, stdout *)
| PrintNoDatabases                    (* line 182, stdout *)
| PrintSummary (count : nat).         (* lines 185-186, stdout *)

(** The state the script reads and changes: the files, by absolute path,
    the working directory, whether the connection [con] is open, and the
    events so far, oldest first. *)
Record World := {
  fs : gmap (list N) (list N);
  cwd : str;
  con_open : bool;
  events : list Event
}.

Inductive exn :=
| CalledProcessError
| TypeError
| ValueError
| OtherError.  (* any other subclass of [Exception] *)

Inductive DumpOutcome :=
| DumpOk (dump_bytes : bytes)
| DumpFailed      (* the command exits with a non-zero status *)
| DumpNotRun.     (* the command cannot be started *)

Inductive GzipOutcome :=
| GzipOk
| GzipTypeError   (* the constructor refuses its arguments *)
| GzipFailed (written : option bytes).
    (* any other error; [Some b]: the file was opened for append and [b]
       reached it before the error, [None]: the file was not opened *)

(** What the outside answers during one call of [optimize_and_dump]:
    for each call that can fail whether it raises, and what SQLite and the
    dump command produce. *)
Record Oracle := {
  connect_raises : bool;             (* lines 55-56 *)
  pragma_optimize : option bytes;    (* line 59: the database file after it *)
  commit_raises : bool;              (* line 62 *)
  vacuum_into : option bytes;        (* line 65: the compacted copy *)
  close_raises : bool;               (* line 66 *)
  replace_raises : bool;             (* line 67 *)
  reconnect_raises : bool;           (* lines 68-69 *)
  vacuum : option bytes;             (* line 72: the database file after it *)
  vacuum_commit_raises : bool;       (* line 73 *)
  final_close_raises : bool;         (* line 76 *)
  dump : DumpOutcome;                (* line 79 *)
  now : Z;                           (* line 84: [int(time.time())] *)
  gzip_append : GzipOutcome;         (* lines 96-97 *)
  gzip_append_fallback : GzipOutcome (* lines 100-101 *)
}.

(** What the outside answers during one call of [restore_latest]. *)
Record Replay := {
  replay_connect_raises : bool;      (* line 150 *)
  executescript_raises : bool;       (* line 151 *)
  image_after : bytes;               (* the target file after line 151 *)
  replay_close_raises : bool         (* line 152 *)
}.

Record Env := {
  oracle : Path -> Oracle;           (* by source database *)
  replay : Path -> Replay            (* by target database *)
}.

(** The gzip container and the text layer of [gzip.open(.., 'rt')]. *)
Record Codec := {
  gz_member : option Z -> bytes -> bytes;
    (* one member holding the given bytes, with the given [mtime] *)
  gunzip : bytes -> option bytes;
    (* all members of a file, decompressed; [None]: not a gzip stream *)
  decode_text : bytes -> option str
    (* decoding and newline translation; [None]: undecodable *)
}.

(** ** A state and exception monad for the script *)

Inductive result (A : Type) :=
| Ret (a : A)
| Exc (e : exn).
Arguments Ret {A} a.
Arguments Exc {A} e.

Definition M (A : Type) : Type := World -> result A * World.

Definition ret {A} (a : A) : M A := fun w => (Ret a, w).
Definition raise {A} (e : exn) : M A := fun w => (Exc e, w).
Definition bind {A B} (m : M A) (k : A -> M B) : M B :=
  fun w =>
    match m w with
    | (Ret a, w') => k a w'
    | (Exc e, w') => (Exc e, w')
    end.

(** [try: m except Exception as e: h e] *)
Definition try_except {A} (m : M A) (h : exn -> M A) : M A :=
  fun w =>
    match m w with
    | (Ret a, w') => (Ret a, w')
    | (Exc e, w') => h e w'
    end.

Declare Scope py_scope.
Delimit Scope py_scope with py.
Notation "x <- m ;; k" := (bind m (fun x => k))
  (at level 100, m at next level, k at level 200, right associativity)
  : py_scope.
Notation "m ;; k" := (bind m (fun _ => k))
  (at level 100, k at level 200, right associativity) : py_scope.
Local Open Scope py_scope.

Definition get_world : M World := fun w => (Ret w, w).

Definition emit (ev : Event) : M unit :=
  fun w => (Ret tt, {| fs := fs w; cwd := cwd w; con_open := con_open w;
                       events := events w ++ [ev] |}).

Definition set_fs (f : gmap (list N) (list N)) : M unit :=
  fun w => (Ret tt, {| fs := f; cwd := cwd w; con_open := con_open w;
                       events := events w |}).

Definition set_con_open (b : bool) : M unit :=
  fun w => (Ret tt, {| fs := fs w; cwd := cwd w; con_open := b;
                       events := events w |}).

(** A call that raises when the outside says so. *)
Definition may_raise (raises : bool) : M unit :=
  if raises then raise OtherError else ret tt.

(** [p.exists()] *)
Definition exists_ (p : Path) : M bool :=
  fun w => (Ret (bool_decide (is_Some (fs w !! abspath (cwd w) p))), w).

(** [p.stat().st_size]; [FileNotFoundError] for a missing file. *)
Definition stat_size (p : Path) : M Z :=
  fun w =>
    match fs w !! abspath (cwd w) p with
    | Some b => (Ret (Z.of_nat (length b)), w)
    | None => (Exc OtherError, w)
    end.

(** Writing the whole of a file that SQLite has open. *)
Definition write_file (p : Path) (b : bytes) : M unit :=
  w <- get_world ;; set_fs (<[abspath (cwd w) p := b]> (fs w)).

(** Appending to a file opened with mode ["ab"]: created when missing. *)
Definition append_file (p : Path) (b : bytes) : M unit :=
  w <- get_world ;;
  set_fs (<[abspath (cwd w) p := default [] (fs w !! abspath (cwd w) p) ++ b]>
            (fs w)).

(** [src.replace(dst)]: [FileNotFoundError] when [src] is missing. *)
Definition replace_file (raises : bool) (src dst : Path) : M unit :=
  w <- get_world ;;
  match fs w !! abspath (cwd w) src with
  | Some b =>
      may_raise raises ;;
      set_fs (<[abspath (cwd w) dst := b]> (delete (abspath (cwd w) src) (fs w)))
  | None => raise OtherError
  end.

(** ** [optimize_and_dump] *)

Section Script.

Context (gz : Codec) (E : Env).

(** Lines 58-61: the plan refresh hint, its failure swallowed. *)
Definition plan_refresh (o : Oracle) (db_path : Path) : M unit :=
  try_except
    match pragma_optimize o with
    | Some image => write_file db_path image
    | None => raise OtherError
    end
    (fun _ => ret tt).

(** Line 65: [VACUUM INTO '<name>'].  SQLite resolves the bare name against
    the working directory and refuses an output file that exists. *)
Definition execute_vacuum_into (o : Oracle) (name : str) : M unit :=
  w <- get_world ;;
  match vacuum_into o, fs w !! abspath (cwd w) name with
  | Some image, None => write_file name image
  | _, _ => raise OtherError
  end.

(** Line 72: [VACUUM;] through the cursor of [con]; a closed connection
    raises [ProgrammingError]. *)
Definition execute_vacuum (o : Oracle) (db_path : Path) : M unit :=
  w <- get_world ;;
  if con_open w then
    match vacuum o with
    | Some image => write_file db_path image
    | None => raise OtherError
    end
  else raise OtherError.

(** Lines 63-75: compaction into a temporary file that replaces the
    database, with the in-place [VACUUM] as the handler. *)
Definition compact (o : Oracle) (db_path : Path) : M unit :=
  try_except
    match with_suffix db_path (lit ".vacuuming") with
    | None => raise ValueError
    | Some temp_file =>
        execute_vacuum_into o (path_name temp_file) ;;
        may_raise (close_raises o) ;;
        set_con_open false ;;
        replace_file (replace_raises o) temp_file db_path ;;
        may_raise (reconnect_raises o) ;;
        set_con_open true
    end
    (fun _ =>
       try_except
         (execute_vacuum o db_path ;;
          may_raise (vacuum_commit_raises o))
         (fun _ => ret tt)).

(** Line 79: [subprocess.check_output(["sqlite3", str(db_path), ".dump"])]. *)
Definition check_output_dump (o : Oracle) (db_path : Path) : M bytes :=
  emit (RunDump db_path) ;;
  match dump o with
  | DumpOk dump_bytes => ret dump_bytes
  | DumpFailed => raise CalledProcessError
  | DumpNotRun => raise OtherError
  end.

(** One [with gzip.GzipFile(filename, mode="ab", mtime=..) as f: f.write(data)]. *)
Definition gzip_write (out : GzipOutcome) (dump_path : Path)
    (mtime : option Z) (data : bytes) : M unit :=
  match out with
  | GzipOk => append_file dump_path (gz_member gz mtime data)
  | GzipTypeError => raise TypeError
  | GzipFailed (Some b) => append_file dump_path b ;; raise OtherError
  | GzipFailed None => raise OtherError
  end.

(** Lines 88-92: the plain text of one framed record. *)
Definition framed_record (timestamp : Z) (source : str) (size : Z)
    (dump_bytes : bytes) : option bytes :=
  match encode_utf8 (metadata_line timestamp source size) with
  | Some metadata_bytes => Some (metadata_bytes ++ dump_bytes ++ [LF; LF])
  | None => None
  end.

(** Lines 55-76: the Compactor.  An exception of the first connection, of
    the commit of line 62 or of the last [close] leaves through the outer
    [try]; the others are handled inside. *)
Definition compactor (o : Oracle) (db_path : Path) : M unit :=
  may_raise (connect_raises o) ;;
  set_con_open true ;;
  (* [prune_db(db_path)] does nothing *)
  plan_refresh o db_path ;;
  may_raise (commit_raises o) ;;
  compact o db_path ;;
  may_raise (final_close_raises o) ;;
  set_con_open false.

(** Lines 79-107: the dump, the framing and the append.  The ratio of
    line 104 and the rounded sizes of line 106 are floating point values
    that are only printed; the event carries the integers. *)
Definition dump_and_append (o : Oracle) (db_path dump_path : Path) : M Path :=
  dump_bytes <- check_output_dump o db_path ;;
  orig <- stat_size db_path ;;
  match framed_record (now o) db_path orig dump_bytes with
  | None => raise OtherError
  | Some combined_bytes =>
      try_except
        (gzip_write (gzip_append o) dump_path (Some 0%Z) combined_bytes)
        (fun e =>
           match e with
           | TypeError =>
               gzip_write (gzip_append_fallback o) dump_path None combined_bytes
           | _ => raise e
           end) ;;
      comp <- stat_size dump_path ;;
      let action :=
        if (Z.of_nat (length combined_bytes) <? comp)%Z
        then Updated else Created in
      emit (PrintSnapshot action (path_name dump_path) orig comp) ;;
      ret dump_path
  end.

(** Lines 55-107: the body of the [try]. *)
Definition snapshot_body (db_path dump_path : Path) : M Path :=
  let o := oracle E db_path in
  compactor o db_path ;;
  dump_and_append o db_path dump_path.

(** Lines 108-112: the two handlers of the outer [try]; both fall through
    to [return None]. *)
Definition report_failure (db_path : Path) (e : exn) : M (option Path) :=
  match e with
  | CalledProcessError => emit (PrintErrorDumping db_path) ;; ret None
  | _ => emit (PrintUnexpected db_path) ;; ret None
  end.

(** Lines 45-112.  The return value is [None] or the path of the archive;
    the only exception that leaves the function is the [ValueError] of
    line 53. *)
Definition optimize_and_dump (db_path : Path) : M (option Path) :=
  present <- exists_ db_path ;;
  if negb present then ret None
  else
    match with_suffix db_path (lit ".sql.gz") with
    | None => raise ValueError
    | Some dump_path =>
        try_except
          (out <- snapshot_body db_path dump_path ;; ret (Some out))
          (report_failure db_path)
    end.

(** ** [restore_latest] *)

(** Lines 128-129: [gzip.open(gz_path, 'rt').read()]. *)
Definition read_text (gz_path : Path) : M str :=
  w <- get_world ;;
  match fs w !! abspath (cwd w) gz_path with
  | Some b =>
      match gunzip gz b with
      | Some plain =>
          match decode_text gz plain with
          | Some content => ret content
          | None => raise OtherError
          end
      | None => raise OtherError
      end
  | None => raise OtherError
  end.

(** Lines 114-159.  [image_after] is the target file once
    [executescript] has returned or raised. *)
Definition restore_latest (gz_path db_path : Path) : M bool :=
  present <- exists_ gz_path ;;
  if negb present then emit (PrintNotFound gz_path) ;; ret false
  else
    try_except
      (content <- read_text gz_path ;;
       let sql_dump := sql_dump_of content in
       let r := replay E db_path in
       may_raise (replay_connect_raises r) ;;
       emit (ExecuteScript db_path sql_dump) ;;
       write_file db_path (image_after r) ;;
       may_raise (executescript_raises r) ;;
       may_raise (replay_close_raises r) ;;
       emit (PrintRestored (path_name db_path) (path_name gz_path)) ;;
       ret true)
      (fun _ => emit (PrintErrorRestoring db_path) ;; ret false).

(** ** [main] *)

Definition DB_FILES : list str := [lit "database.db"; lit "database2.db"].

(** Lines 175-180: the loop, [produced] being the list so far. *)
Fixpoint snapshot_loop (ROOT : Path) (names : list str) (produced : list Path)
  : M (list Path) :=
  match names with
  | [] => ret produced
  | name :: rest =>
      out <- optimize_and_dump (joinpath ROOT name) ;;
      match out with
      | Some p => snapshot_loop ROOT rest (produced ++ [p])
      | None => snapshot_loop ROOT rest produced
      end
  end.

(** Lines 175-187 for a list of database names. *)
Definition snapshot_all (ROOT : Path) (names : list str) : M Z :=
  produced <- snapshot_loop ROOT names [] ;;
  match produced with
  | [] => emit PrintNoDatabases ;; ret 0%Z
  | _ :: _ => emit (PrintSummary (length produced)) ;; ret 0%Z
  end.

(** Lines 161-187, the list of database names being a parameter. *)
Definition main_with (names : list str) (ROOT : Path) (argv : list str) : M Z :=
  if (1 <? length argv)%nat then
    let argv1 := nth 1 argv [] in
    if bool_decide (argv1 = lit "--restore") && (length argv =? 4)%nat then
      success <- restore_latest (nth 2 argv []) (nth 3 argv []) ;;
      ret (if success then 0%Z else 1%Z)
    else if bool_decide (argv1 ∈ [lit "-h"; lit "--help"]) then
      emit (PrintUsage (nth 0 argv [])) ;; ret 0%Z
    else snapshot_all ROOT names
  else snapshot_all ROOT names.

(** [main()] when the script lives in [ROOT/scripts]. *)
Definition main (ROOT : Path) (argv : list str) : M Z :=
  main_with DB_FILES ROOT argv.

End Script.

(** ** Notions used in the statements *)

(** The first character of a line that is not white space. *)
Definition first_nonspace (line : str) : option N := head (lstrip line).

(** The plain text of a framed record: the metadata line, the dump body
    and two line feeds. *)
Definition framed (meta body : str) : str := meta ++ LF :: body ++ [LF; LF].

Definition framed_all (records : list (str * str)) : str :=
  flat_map (fun r => framed (fst r) (snd r)) records.

(** The characters from the space to the tilde. *)
Definition printable (c : N) : Prop := 32 <= c /\ c <= 126.







(** The files the Compactor may write: the database and the temporary
    file, under the name SQLite is given and under its full path. *)
Definition compaction_keys (cwd : str) (db_path : Path) : list str :=
  abspath cwd db_path ::
  match with_suffix db_path (lit ".vacuuming") with
  | Some temp_file =>
      [abspath cwd temp_file; abspath cwd (path_name temp_file)]
  | None => []
  end.

(** [w'] is [w] except for the files [keys] and the connection. *)
Definition same_but (keys : list str) (w w' : World) : Prop :=
  cwd w' = cwd w /\ events w' = events w
  /\ forall k, ~ In k keys -> fs w' !! k = fs w !! k.

(** The world after one more event. *)
Definition logged (ev : Event) (w : World) : World := snd (emit ev w).

(** The events of the snapshot direction. *)
Definition snapshot_event (ev : Event) : bool :=
  match ev with
  | RunDump _ | PrintSnapshot _ _ _ _ | PrintErrorDumping _
  | PrintUnexpected _ | PrintNoDatabases | PrintSummary _ => true
  | _ => false
  end.

(** The Compactor gets through: the three calls whose exception is not
    handled inside it do not raise. *)
Definition compactor_passes (o : Oracle) : Prop :=
  connect_raises o = false /\ commit_raises o = false
  /\ final_close_raises o = false.

(** The ways one call of [optimize_and_dump] on an existing database ends:
    what it returns, what it adds to the events and what becomes of the
    archive file [arch]. *)
Inductive cycle (gz : Codec) (o : Oracle) (db_path dump_path : Path)
    (w w' : World) : option Path -> Prop :=
| cycle_compactor_failed :
    ~ compactor_passes o ->
    events w' = events w ++ [PrintUnexpected db_path] ->
    fs w' !! abspath (cwd w) dump_path = fs w !! abspath (cwd w) dump_path ->
    cycle gz o db_path dump_path w w' None
| cycle_dump_failed :
    compactor_passes o ->
    dump o = DumpFailed ->
    events w' = events w ++ [RunDump db_path; PrintErrorDumping db_path] ->
    fs w' !! abspath (cwd w) dump_path = fs w !! abspath (cwd w) dump_path ->
    cycle gz o db_path dump_path w w' None
| cycle_other_failed :
    compactor_passes o ->
    dump o <> DumpFailed ->
    events w' = events w ++ [RunDump db_path; PrintUnexpected db_path] ->
    (fs w' !! abspath (cwd w) dump_path = fs w !! abspath (cwd w) dump_path
     \/ exists more,
         fs w' !! abspath (cwd w) dump_path
         = Some (default [] (fs w !! abspath (cwd w) dump_path) ++ more)) ->
    cycle gz o db_path dump_path w w' None
| cycle_appended (dump_bytes b : bytes) (mtime : option Z) (comp : Z)
    (action : Action) :
    compactor_passes o ->
    dump o = DumpOk dump_bytes ->
    fs w' !! abspath (cwd w) db_path = Some b ->
    fs w' !! abspath (cwd w) dump_path
    = Some (default [] (fs w !! abspath (cwd w) dump_path)
            ++ gz_member gz mtime
                 (framed (json_dumps (metadata (now o) db_path
                                               (Z.of_nat (length b))))
                         dump_bytes)) ->
    events w'
    = events w ++ [RunDump db_path;
                   PrintSnapshot action (path_name dump_path)
                                 (Z.of_nat (length b)) comp] ->
    cycle gz o db_path dump_path w w' (Some dump_path).

(** ** A small concrete world

    Used to run the script on explicit inputs. *)

(** A container that stores the bytes as they are. *)
Definition stored : Codec :=
  {| gz_member := fun _ b => b;
     gunzip := fun b => Some b;
     decode_text := fun b => Some b |}.

Definition db0 : Path := lit "/r/database.db".
Definition archive0 : Path := lit "/r/database.sql.gz".
Definition temp0 : Path := lit "/r/database.vacuuming".
Definition target0 : Path := lit "/r/restored.db".

(** The dump of a database with one empty table. *)
Definition dump0 : bytes :=
  lit "BEGIN TRANSACTION;" ++ LF :: lit "CREATE TABLE t(a INTEGER, b TEXT);"
  ++ LF :: lit "COMMIT;" ++ [LF].

(** An eight byte database file that compaction halves. *)
Definition image0 : bytes := [83; 81; 76; 0; 0; 0; 0; 0].
Definition compacted0 : bytes := [83; 81; 76; 0].

(** The answers of the outside: which of the first connection and the
    rename raise, and how the dump command ends; nothing else raises,
    [VACUUM INTO] writes [compacted0]. *)
Definition oracle0 (connect replace : bool) (d : DumpOutcome) : Oracle :=
  {| connect_raises := connect;
     pragma_optimize := Some image0;
     commit_raises := false;
     vacuum_into := Some compacted0;
     close_raises := false;
     replace_raises := replace;
     reconnect_raises := false;
     vacuum := Some compacted0;
     vacuum_commit_raises := false;
     final_close_raises := false;
     dump := d;
     now := 1700000000%Z;
     gzip_append := GzipOk;
     gzip_append_fallback := GzipOk |}.

Definition replay0 : Replay :=
  {| replay_connect_raises := false;
     executescript_raises := false;
     image_after := image0;
     replay_close_raises := false |}.

Definition env0 (o : Oracle) : Env :=
  {| oracle := fun _ => o; replay := fun _ => replay0 |}.

(** Everything works. *)
Definition calm : Env := env0 (oracle0 false false (DumpOk dump0)).

(** The directory [/r] with the database and nothing else. *)
Definition world0 : World :=
  {| fs := {[ db0 := image0 ]}; cwd := lit "/r"; con_open := false;
     events := [] |}.

(** The directory [/r] without any file. *)
Definition empty_world : World :=
  {| fs := ∅; cwd := lit "/r"; con_open := false; events := [] |}.

(** [world0] after one snapshot. *)
Definition world1 : World := snd (optimize_and_dump stored calm db0 world0).

(** A directory with an archive of the time before the framing. *)
Definition legacy_world : World :=
  {| fs := {[ archive0 := dump0 ]}; cwd := lit "/r"; con_open := false;
     events := [] |}.

(** [world1] after a second snapshot. *)
Definition world2 : World := snd (optimize_and_dump stored calm db0 world1).

(** The metadata line of these snapshots, without its line feed. *)
Definition meta0 : str := json_dumps (metadata 1700000000 db0 4).

(** The rename raises. *)
Definition rename_fails : Env := env0 (oracle0 false true (DumpOk dump0)).

(** The first connection raises. *)
Definition connect_fails : Env := env0 (oracle0 true false (DumpOk dump0)).

(** The dump command exits with an error. *)
Definition dump_fails : Env := env0 (oracle0 false false DumpFailed).

(** A second database beside the first, and an outside in which the dump
    of the first fails and the dump of the second works. *)
Definition db2 : Path := lit "/r/database2.db".

Definition first_dump_fails : Env :=
  {| oracle := fun p =>
       if bool_decide (p = db0) then oracle0 false false DumpFailed
       else oracle0 false false (DumpOk dump0);
     replay := fun _ => replay0 |}.

Definition two_databases : World :=
  {| fs := {[ db0 := image0; db2 := image0 ]}; cwd := lit "/r";
     con_open := false; events := [] |}.

(** ** Notions used in the further properties *)



(** The files one call of [optimize_and_dump] may write. *)
Definition snapshot_keys (cwd : str) (db_path : Path) : list str :=
  compaction_keys cwd db_path ++
  match with_suffix db_path (lit ".sql.gz") with
  | Some dump_path => [abspath cwd dump_path]
  | None => []
  end.

(** The archive of a configured name, when the name is a file name. *)
Definition archive_of (ROOT : Path) (name : str) : option Path :=
  with_suffix (joinpath ROOT name) (lit ".sql.gz").

(** A directory [/elsewhere] from which the script is run on [/r]. *)
Definition other_directory : World :=
  {| fs := {[ db0 := image0 ]}; cwd := lit "/elsewhere"; con_open := true;
     events := [] |}.

(** The same with a temporary file left in [/r] by an earlier run. *)
Definition stale0 : bytes := [79; 76; 68].

Definition other_directory_stale : World :=
  {| fs := {[ db0 := image0; temp0 := stale0 ]}; cwd := lit "/elsewhere";
     con_open := true; events := [] |}.

(** A container that puts two bytes before the stored data. *)
Definition headed : Codec :=
  {| gz_member := fun _ b => 31 :: 139 :: b;
     gunzip := fun b => Some b;
     decode_text := fun b => Some b |}.

(** * Properties *)

(** ** Lines and headers *)

Lemma split_nl_nonempty (s : str) : split_nl s <> [].
Proof.
  destruct s as [|c r]; simpl; [discriminate|].
  destruct (c =? LF); [discriminate|].
  destruct (split_nl r); discriminate.
Qed.

Lemma split_nl_app_LF (a b : str) :
  split_nl (a ++ LF :: b) = split_nl a ++ split_nl b.
Proof.
  induction a as [|c a IH]; simpl.
  - reflexivity.
  - destruct (c =? LF).
    + now rewrite IH.
    + rewrite IH. pose proof (split_nl_nonempty a) as Hne.
      destruct (split_nl a); [congruence | reflexivity].
Qed.

Lemma split_nl_one_line (s : str) : ~ In LF s -> split_nl s = [s].
Proof.
  induction s as [|c r IH]; simpl; intros Hnot; [reflexivity|].
  destruct (N.eqb_spec c LF) as [->|_]; [tauto|].
  rewrite IH by tauto. reflexivity.
Qed.

Lemma join_split_nl (s : str) : join_nl (split_nl s) = s.
Proof.
  induction s as [|c r IH]; simpl; [reflexivity|].
  destruct (N.eqb_spec c LF) as [->|_].
  - pose proof (split_nl_nonempty r) as Hne.
    simpl. destruct (split_nl r) eqn:Hs; [congruence|].
    simpl. now rewrite <- IH.
  - pose proof (split_nl_nonempty r) as Hne.
    destruct (split_nl r) as [|l ls] eqn:Hs; [congruence|].
    rewrite <- IH. destruct ls; reflexivity.
Qed.

Lemma lstrip_head (s : str) (c : N) (r : str) :
  lstrip s = c :: r -> py_isspace c = false.
Proof.
  induction s as [|x s IH]; simpl; [discriminate|].
  destruct (py_isspace x) eqn:Hx; [exact IH|].
  intros [= <- _]. exact Hx.
Qed.

Lemma lstrip_keeps_last (s : str) (c : N) :
  py_isspace c = false -> exists y, lstrip (s ++ [c]) = y ++ [c].
Proof.
  intros Hc. induction s as [|x s IH]; simpl.
  - rewrite Hc. now exists [].
  - destruct (py_isspace x); [exact IH|]. now exists (x :: s).
Qed.

(** The test of line 136 looks at the first character that is not white
    space. *)
Lemma is_json_line_first_nonspace (line : str) :
  is_json_line line = true <-> first_nonspace line = Some 123.
Proof.
  unfold is_json_line, first_nonspace, strip, rstrip.
  destruct (lstrip line) as [|c r] eqn:Hl; simpl.
  - split; discriminate.
  - apply lstrip_head in Hl.
    destruct (lstrip_keeps_last (rev r) c Hl) as [y ->].
    rewrite rev_app_distr. change (lit "{") with [123].
    cbn [rev app startswith].
    replace (startswith (rev y) []) with true by (now destruct (rev y)).
    rewrite andb_true_r, N.eqb_eq. split; congruence.
Qed.

Lemma is_json_line_false (line : str) :
  first_nonspace line <> Some 123 -> is_json_line line = false.
Proof.
  intros H. destruct (is_json_line line) eqn:Hj; [|reflexivity].
  now apply is_json_line_first_nonspace in Hj.
Qed.

Lemma no_json_lines (i : nat) (lines : list str) :
  (forall line, In line lines -> first_nonspace line <> Some 123) ->
  json_line_indices_from i lines = [].
Proof.
  revert i. induction lines as [|l ls IH]; intros i H; simpl; [reflexivity|].
  rewrite is_json_line_false by (apply H; now left).
  apply IH. intros line Hin. apply H. now right.
Qed.

Lemma last_json_line (i : nat) (before : list str) (h : str) (after : list str) :
  first_nonspace h = Some 123 ->
  (forall line, In line after -> first_nonspace line <> Some 123) ->
  last (json_line_indices_from i (before ++ h :: after))
  = Some (i + length before)%nat.
Proof.
  intros Hh Hafter. revert i.
  induction before as [|l ls IH]; intros i; simpl.
  - apply is_json_line_first_nonspace in Hh. rewrite Hh.
    rewrite no_json_lines by assumption. simpl. f_equal. lia.
  - specialize (IH (S i)).
    replace (i + S (length ls))%nat with (S i + length ls)%nat by lia.
    destruct (is_json_line l); [|exact IH].
    destruct (json_line_indices_from (S i) (ls ++ h :: after)) eqn:Hx.
    + discriminate.
    + exact IH.
Qed.

Lemma framed_all_ends (records : list (str * str)) :
  framed_all records = [] \/ exists p, framed_all records = p ++ [LF].
Proof.
  induction records as [|[m b] rs IH]; [now left|right].
  unfold framed_all in *. simpl.
  destruct IH as [-> | [p ->]].
  - exists (m ++ LF :: b ++ [LF]). unfold framed.
    rewrite app_nil_r. rewrite <- !app_assoc. simpl.
    rewrite <- app_assoc. reflexivity.
  - exists (framed m b ++ p). now rewrite app_assoc.
Qed.

(** What [restore_latest] takes from a text whose last header line is [m]. *)
Lemma sql_dump_of_last_record (p m b : str) :
  p = [] \/ (exists p', p = p' ++ [LF]) ->
  ~ In LF m ->
  first_nonspace m = Some 123 ->
  (forall line, In line (split_nl b) -> first_nonspace line <> Some 123) ->
  sql_dump_of (p ++ framed m b) = b ++ [LF; LF].
Proof.
  intros Hp Hm Hh Hb.
  assert (Hrest : forall line, In line (split_nl (b ++ [LF; LF])) ->
                               first_nonspace line <> Some 123).
  { intros line. rewrite split_nl_app_LF. simpl. rewrite in_app_iff.
    intros [Hin | [<- | [<- | []]]]; [now apply Hb | discriminate | discriminate]. }
  assert (Hsplit : exists before,
             split_nl (p ++ framed m b) = before ++ m :: split_nl (b ++ [LF; LF])).
  { unfold framed. destruct Hp as [-> | [p' ->]].
    - exists []. simpl. rewrite split_nl_app_LF.
      rewrite (split_nl_one_line m) by assumption.
      reflexivity.
    - exists (split_nl p'). rewrite <- app_assoc. simpl.
      rewrite split_nl_app_LF, split_nl_app_LF.
      rewrite (split_nl_one_line m) by assumption.
      reflexivity. }
  destruct Hsplit as [before Hsplit].
  unfold sql_dump_of, json_line_indices. rewrite Hsplit.
  rewrite last_json_line by assumption. simpl.
  replace (length before + 1)%nat with (length before + 1 + 0)%nat by lia.
  replace (before ++ m :: split_nl (b ++ [LF; LF]))
    with ((before ++ [m]) ++ split_nl (b ++ [LF; LF]))
    by (now rewrite <- app_assoc).
  rewrite skipn_app.
  rewrite skipn_all2 by (rewrite length_app; simpl; lia).
  rewrite length_app. simpl.
  replace (length before + 1 + 0 - (length before + 1))%nat with 0%nat by lia.
  simpl. apply join_split_nl.
Qed.

Lemma sql_dump_of_legacy (content : str) :
  (forall line, In line (split_nl content) -> first_nonspace line <> Some 123) ->
  sql_dump_of content = content.
Proof.
  intros H. unfold sql_dump_of, json_line_indices.
  now rewrite no_json_lines.
Qed.

Section Reader.

Context (gz : Codec) (E : Env).

Lemma exists_present (p : Path) (w : World) (b : bytes) :
  fs w !! abspath (cwd w) p = Some b -> exists_ p w = (Ret true, w).
Proof.
  intros H. unfold exists_. rewrite H.
  rewrite bool_decide_eq_true_2 by (now exists b). reflexivity.
Qed.

Lemma exists_absent (p : Path) (w : World) :
  fs w !! abspath (cwd w) p = None -> exists_ p w = (Ret false, w).
Proof.
  intros H. unfold exists_. rewrite H.
  rewrite bool_decide_eq_false_2; [reflexivity|]. intros [x Hx]. discriminate.
Qed.

Lemma read_text_ok (gz_path : Path) (w : World) (b plain : bytes) (content : str) :
  fs w !! abspath (cwd w) gz_path = Some b ->
  gunzip gz b = Some plain ->
  decode_text gz plain = Some content ->
  read_text gz gz_path w = (Ret content, w).
Proof.
  intros Hf Hg Hd. unfold read_text, bind, get_world. simpl.
  rewrite Hf, Hg, Hd. reflexivity.
Qed.

Lemma restore_latest_replays (gz_path db_path : Path) (w : World)
    (b plain : bytes) (content : str) :
  fs w !! abspath (cwd w) gz_path = Some b ->
  gunzip gz b = Some plain ->
  decode_text gz plain = Some content ->
  replay_connect_raises (replay E db_path) = false ->
  exists evs,
    events (snd (restore_latest gz E gz_path db_path w))
    = events w ++ ExecuteScript db_path (sql_dump_of content) :: evs.
Proof.
  intros Hf Hg Hd Hc.
  unfold restore_latest, bind at 1.
  rewrite (exists_present _ _ _ Hf). cbn [negb].
  unfold try_except, bind at 1.
  rewrite (read_text_ok _ _ _ _ _ Hf Hg Hd).
  rewrite Hc.
  destruct (executescript_raises (replay E db_path)), (replay_close_raises (replay E db_path));
    cbn; rewrite <- ?app_assoc; eexists; reflexivity.
Qed.

End Reader.

(** ** The metadata line and its reader *)



Lemma hex_digit_printable (d : N) :
  d < 16 -> 48 <= hex_digit d /\ hex_digit d <= 102.
Proof.
  intros H. unfold hex_digit. destruct (N.ltb_spec d 10); lia.
Qed.











(** *** Integers *)

Lemma uint_digits (d : uint) :
  Forall (fun c => is_number_char c = true) (lit (NilEmpty.string_of_uint d)).
Proof.
  induction d; cbn [NilEmpty.string_of_uint]; unfold lit in *;
    cbn [list_ascii_of_string map]; constructor; try assumption; reflexivity.
Qed.

Lemma int_repr_digits (z : Z) :
  Forall (fun c => is_number_char c = true) (int_repr z).
Proof.
  unfold int_repr.
  assert (Hu : forall d, Forall (fun c => is_number_char c = true)
                                (lit (NilZero.string_of_uint d))).
  { intros d. destruct d; try apply uint_digits.
    repeat constructor. }
  destruct (Z.to_int z) as [d | d]; cbn [NilZero.string_of_int].
  - apply Hu.
  - unfold lit. cbn [list_ascii_of_string map]. constructor; [reflexivity|].
    apply Hu.
Qed.





(** *** Values, members, dictionaries *)






(** *** The line is printable ASCII *)

Lemma u_escape_printable (n : N) : Forall printable (u_escape n).
Proof.
  unfold u_escape, printable.
  repeat constructor; try lia;
    match goal with
    | |- context [hex_digit ?d] =>
        pose proof (hex_digit_printable d ltac:(apply N.mod_lt; discriminate));
        generalize dependent (hex_digit d); intros; lia
    end.
Qed.

Lemma escape_char_printable (c : N) : Forall printable (escape_char c).
Proof.
  unfold escape_char.
  destruct (c =? 92); [repeat constructor; lia|].
  destruct (c =? 34); [repeat constructor; lia|].
  destruct (N.leb_spec 32 c); [destruct (N.leb_spec c 126)|]; cbn [andb];
    [repeat constructor; lia | |];
    (destruct (c =? 8); [repeat constructor; lia|];
     destruct (c =? 12); [repeat constructor; lia|];
     destruct (c =? 10); [repeat constructor; lia|];
     destruct (c =? 13); [repeat constructor; lia|];
     destruct (c =? 9); [repeat constructor; lia|];
     destruct (c <? 65536); [apply u_escape_printable|];
     apply Forall_app; split; apply u_escape_printable).
Qed.

Lemma encode_printable (s : str) : Forall printable (encode_basestring_ascii s).
Proof.
  unfold encode_basestring_ascii, escape_body.
  constructor; [unfold printable; lia|].
  apply Forall_app; split; [|repeat constructor; lia].
  induction s as [|c s IH]; cbn [flat_map]; [constructor|].
  apply Forall_app; split; [apply escape_char_printable | exact IH].
Qed.

Lemma number_char_printable (c : N) : is_number_char c = true -> printable c.
Proof.
  unfold is_number_char, printable. intros H.
  apply orb_prop in H as [H | H].
  - apply N.eqb_eq in H. lia.
  - apply andb_prop in H as [H1 H2]. apply N.leb_le in H1, H2. lia.
Qed.

Lemma json_value_printable (v : jvalue) : Forall printable (json_value v).
Proof.
  destruct v as [z | s]; cbn [json_value].
  - eapply Forall_impl; [apply int_repr_digits|].
    intros c. apply number_char_printable.
  - apply encode_printable.
Qed.

Lemma json_dumps_printable (items : list (str * jvalue)) :
  Forall printable (json_dumps items).
Proof.
  unfold json_dumps. constructor; [unfold printable; lia|].
  apply Forall_app; split; [|repeat constructor; lia].
  induction items as [|[k v] items IH]; [constructor|].
  destruct items as [|kv items'].
  - cbn [json_members]. apply Forall_app; split; [apply encode_printable|].
    constructor; [unfold printable; lia | apply json_value_printable].
  - change (json_members ((k, v) :: kv :: items'))
      with (encode_basestring_ascii k ++ 58 :: json_value v
            ++ 44 :: json_members (kv :: items')).
    apply Forall_app; split; [apply encode_printable|].
    constructor; [unfold printable; lia|].
    apply Forall_app; split; [apply json_value_printable|].
    constructor; [unfold printable; lia | exact IH].
Qed.

Lemma printable_no_LF (s : str) : Forall printable s -> ~ In LF s.
Proof.
  intros H Hin. rewrite Forall_forall in H.
  rewrite <- list_elem_of_In in Hin. apply H in Hin.
  unfold printable, LF in Hin. lia.
Qed.

Lemma encode_utf8_ascii (s : str) :
  Forall (fun c => c < 128) s -> encode_utf8 s = Some s.
Proof.
  induction 1 as [|c s Hc _ IH]; [reflexivity|].
  cbn [encode_utf8]. unfold utf8_char.
  destruct (N.ltb_spec c 128); [|lia]. now rewrite IH.
Qed.

Lemma metadata_line_ascii (t : Z) (s : str) (n : Z) :
  Forall (fun c => c < 128) (metadata_line t s n).
Proof.
  unfold metadata_line. apply Forall_app; split.
  - eapply Forall_impl; [apply json_dumps_printable|].
    unfold printable. intros c Hc. cbn beta in Hc. lia.
  - repeat constructor.
Qed.

(** Line 89 always succeeds and changes nothing. *)
Lemma metadata_bytes_eq (t : Z) (s : str) (n : Z) :
  encode_utf8 (metadata_line t s n) = Some (metadata_line t s n).
Proof. apply encode_utf8_ascii, metadata_line_ascii. Qed.

(** The metadata line passes the test of line 136. *)
Lemma json_dumps_first_nonspace (items : list (str * jvalue)) :
  first_nonspace (json_dumps items) = Some 123.
Proof. reflexivity. Qed.

(** *** Reading the three fields back *)


(** ** Paths *)

Lemma rfind_split (x : N) (s : str) (i : nat) :
  rfind x s = Some i ->
  exists a t, s = a ++ x :: t /\ length a = i /\ ~ In x t.
Proof.
  revert i. induction s as [|c r IH]; intros i; cbn [rfind]; [discriminate|].
  destruct (rfind x r) as [j|] eqn:Hr.
  - intros [= <-]. destruct (IH j eq_refl) as (a & t & -> & Hlen & Hnot).
    exists (c :: a), t. cbn. repeat split; [now rewrite Hlen | exact Hnot].
  - destruct (N.eqb_spec c x) as [-> | Hne]; [|discriminate].
    intros [= <-]. exists [], r. repeat split.
    clear IH. induction r as [|d r IHr]; [tauto|].
    cbn [rfind] in Hr. destruct (rfind x r); [discriminate|].
    destruct (N.eqb_spec d x); [discriminate|].
    intros [-> | Hin]; [congruence | now apply IHr].
Qed.

(** The name is the end of the path. *)
Lemma path_name_suffix (p : Path) : exists a, p = a ++ path_name p.
Proof.
  unfold path_name. destruct (rfind SLASH p) as [i|] eqn:Hr.
  - exists (firstn (S i) p). now rewrite firstn_skipn.
  - now exists [].
Qed.

(** A suffix is empty or a dot and characters that are not dots; it is
    the end of the path and shorter than the name. *)
Lemma path_suffix_shape (p : Path) :
  exists stem,
    p = stem ++ path_suffix p
    /\ (path_name p <> [] -> stem <> [])
    /\ (path_suffix p = []
        \/ exists t, path_suffix p = DOT :: t /\ ~ In DOT t).
Proof.
  destruct (path_name_suffix p) as [a Ha].
  unfold path_suffix.
  destruct (rfind DOT (path_name p)) as [i|] eqn:Hr.
  - destruct (rfind_split _ _ _ Hr) as (b & t & Hn & Hlen & Hnot).
    destruct ((0 <? i)%nat && (i <? length (path_name p) - 1)%nat) eqn:Hi.
    + apply andb_prop in Hi as [Hi _]. apply Nat.ltb_lt in Hi.
      assert (Hs : skipn i (path_name p) = DOT :: t).
      { rewrite Hn, <- Hlen. rewrite skipn_app, Nat.sub_diag.
        rewrite skipn_all. reflexivity. }
      rewrite Hs. exists (a ++ b). repeat split.
      * rewrite <- app_assoc, <- Hn. exact Ha.
      * intros _ Hnil. apply app_eq_nil in Hnil as [_ ->]. cbn in Hlen. lia.
      * right. now exists t.
    + exists p. rewrite app_nil_r. repeat split; [|now left].
      intros Hne ->. now destruct (rfind SLASH []).
  - exists p. rewrite app_nil_r. repeat split; [|now left].
    intros Hne ->. now destruct (rfind SLASH []).
Qed.

Lemma with_suffix_shape (p suffix q : Path) :
  with_suffix p suffix = Some q ->
  exists stem,
    stem <> [] /\ p = stem ++ path_suffix p /\ q = stem ++ suffix.
Proof.
  unfold with_suffix. destruct (path_name p) as [|c n] eqn:Hn; [discriminate|].
  intros [= <-].
  destruct (path_suffix_shape p) as (stem & Hp & Hne & _).
  exists stem. repeat split.
  - apply Hne. rewrite Hn. discriminate.
  - exact Hp.
  - f_equal.
    assert (Hlen : (length p - length (path_suffix p))%nat = length stem)
      by (rewrite Hp at 1; rewrite length_app; lia).
    rewrite Hlen. rewrite Hp at 1. apply take_app_length.
Qed.

Lemma with_suffix_some (p suffix : Path) :
  path_name p <> [] -> exists q, with_suffix p suffix = Some q.
Proof.
  unfold with_suffix. destruct (path_name p); [congruence|]. eauto.
Qed.

(** The absolute form of a path depends on its end only through that end. *)
Lemma abspath_stem (cwd stem : str) :
  stem <> [] ->
  exists pre, forall x, abspath cwd (stem ++ x) = pre ++ x.
Proof.
  intros Hne. destruct stem as [|c stem]; [congruence|].
  unfold abspath. cbn [app startswith].
  destruct (SLASH =? c).
  - exists (c :: stem). intros x. cbn [andb].
    now replace (startswith (stem ++ x) []) with true
      by (now destruct (stem ++ x)).
  - cbn [andb]. unfold joinpath. destruct (last cwd) as [d|].
    + destruct (d =? SLASH).
      * exists (cwd ++ c :: stem). intros x. now rewrite <- app_assoc.
      * exists (cwd ++ SLASH :: c :: stem). intros x. now rewrite <- app_assoc.
    + exists (c :: stem). reflexivity.
Qed.

Lemma last_abspath (cwd p : str) (c : N) :
  last p = Some c -> last (abspath cwd p) = Some c.
Proof.
  intros Hl. unfold abspath, joinpath.
  destruct (startswith p [SLASH]); [exact Hl|].
  destruct (last cwd) as [d|]; [|exact Hl].
  destruct (d =? SLASH).
  - now rewrite last_app, Hl.
  - change (cwd ++ SLASH :: p) with (cwd ++ [SLASH] ++ p).
    now rewrite !last_app, Hl.
Qed.

Lemma last_path_name (p : Path) (c : N) :
  last p = Some c -> c <> SLASH -> last (path_name p) = Some c.
Proof.
  intros Hl Hc. unfold path_name.
  destruct (rfind SLASH p) as [i|] eqn:Hr; [|exact Hl].
  destruct (rfind_split _ _ _ Hr) as (a & t & -> & Hlen & _).
  replace (skipn (S i) (a ++ SLASH :: t)) with t.
  - rewrite last_app_cons, last_cons in Hl.
    destruct (last t); congruence.
  - rewrite <- Hlen. change (a ++ SLASH :: t) with (a ++ [SLASH] ++ t).
    rewrite app_assoc.
    replace (S (length a)) with (length (a ++ [SLASH]))
      by (rewrite length_app; cbn; lia).
    now rewrite drop_app_length.
Qed.

Section Keys.

Variables (cwd db_path dump_path temp_file : Path).
Hypothesis Hdump : with_suffix db_path (lit ".sql.gz") = Some dump_path.
Hypothesis Htemp : with_suffix db_path (lit ".vacuuming") = Some temp_file.

(** The archive is not the database. *)
Lemma archive_not_database : abspath cwd dump_path <> abspath cwd db_path.
Proof.
  destruct (with_suffix_shape _ _ _ Hdump) as (stem & Hne & Hp & ->).
  destruct (abspath_stem cwd stem Hne) as [pre Hpre].
  rewrite Hp at 1. rewrite !Hpre. intros Heq. apply app_inv_head in Heq.
  destruct (path_suffix_shape db_path) as (_ & _ & _ & [Hs | (t & Hs & Hnot)]);
    rewrite Hs in Heq; [discriminate|].
  injection Heq as <-. apply Hnot. cbn. tauto.
Qed.

(** The archive is not the temporary file, by either of its names. *)
Lemma archive_not_temp_file : abspath cwd dump_path <> abspath cwd temp_file.
Proof.
  destruct (with_suffix_shape _ _ _ Hdump) as (stem & Hne & Hp & ->).
  destruct (with_suffix_shape _ _ _ Htemp) as (stem' & _ & Hp' & ->).
  assert (stem' = stem) as ->
    by (rewrite Hp' in Hp at 1; now apply app_inv_tail in Hp).
  destruct (abspath_stem cwd stem Hne) as [pre Hpre].
  rewrite !Hpre. intros Heq. apply app_inv_head in Heq. discriminate.
Qed.

Lemma archive_not_temp_name :
  abspath cwd dump_path <> abspath cwd (path_name temp_file).
Proof.
  destruct (with_suffix_shape _ _ _ Hdump) as (stem & _ & _ & ->).
  destruct (with_suffix_shape _ _ _ Htemp) as (stem' & _ & _ & ->).
  intros Heq.
  assert (H1 : last (abspath cwd (stem ++ lit ".sql.gz")) = Some 122).
  { apply last_abspath. change (lit ".sql.gz") with (lit ".sql.g" ++ [122]).
    now rewrite app_assoc, last_snoc. }
  assert (H2 : last (abspath cwd (path_name (stem' ++ lit ".vacuuming")))
               = Some 103).
  { apply last_abspath, last_path_name; [|discriminate].
    change (lit ".vacuuming") with (lit ".vacuumin" ++ [103]).
    now rewrite app_assoc, last_snoc. }
  rewrite Heq in H1. congruence.
Qed.

End Keys.

(** ** The steps of [optimize_and_dump] *)

Lemma bind_Ret {A B} (m : M A) (k : A -> M B) (w w' : World) (a : A) :
  m w = (Ret a, w') -> bind m k w = k a w'.
Proof. intros H. unfold bind. now rewrite H. Qed.

Lemma bind_Exc {A B} (m : M A) (k : A -> M B) (w w' : World) (e : exn) :
  m w = (Exc e, w') -> bind m k w = (Exc e, w').
Proof. intros H. unfold bind. now rewrite H. Qed.

Lemma same_but_refl (keys : list str) (w : World) : same_but keys w w.
Proof. now repeat split. Qed.

Lemma same_but_trans (keys : list str) (w1 w2 w3 : World) :
  same_but keys w1 w2 -> same_but keys w2 w3 -> same_but keys w1 w3.
Proof.
  intros (Hc & He & Hf) (Hc' & He' & Hf'). repeat split; try congruence.
  intros k Hk. now rewrite Hf', Hf.
Qed.

Ltac run_step :=
  cbv beta iota zeta delta
    [bind ret raise try_except may_raise get_world set_fs set_con_open emit
     write_file replace_file];
  cbn [fs cwd con_open events fst snd].

Ltac case_step :=
  match goal with
  | |- context [match ?x with _ => _ end] =>
      lazymatch x with
      | context [match _ with _ => _ end] => fail
      | _ => destruct x eqn:?
      end
  | |- context [if ?x then _ else _] =>
      lazymatch x with
      | context [if _ then _ else _] => fail
      | _ => destruct x eqn:?
      end
  end.

Ltac frame_goal :=
  repeat split; cbn [fs cwd con_open events];
  try reflexivity;
  try (intros k Hk; cbn [In] in Hk;
       repeat (first [rewrite lookup_insert_ne by tauto
                     | rewrite lookup_delete_ne by tauto]);
       reflexivity).

Ltac exc_case :=
  eexists _, _; (split; [reflexivity|]); cbn [fs cwd events];
  repeat split; try tauto; try discriminate; try congruence;
  try (now left);
  try (intros k Hk; now rewrite lookup_insert_ne by congruence).

Ltac ret_case :=
  eexists _, _; (split; [reflexivity|]); cbn [fs cwd events];
  repeat split;
  [ intros k Hk; now rewrite lookup_insert_ne by congruence
  | eexists _, _, _, _, _; repeat split; try reflexivity;
    [ now rewrite lookup_insert_eq | now rewrite <- app_assoc ] ].

Section Steps.

Context (gz : Codec).

Lemma plan_refresh_effect (o : Oracle) (db_path : Path) (w : World) :
  exists w',
    plan_refresh o db_path w = (Ret tt, w')
    /\ same_but [abspath (cwd w) db_path] w w'
    /\ con_open w' = con_open w.
Proof.
  unfold plan_refresh. run_step.
  destruct (pragma_optimize o); run_step; eexists; split; try reflexivity;
    frame_goal.
Qed.

Lemma compact_effect (o : Oracle) (db_path : Path) (w : World) :
  exists w',
    compact o db_path w = (Ret tt, w')
    /\ same_but (compaction_keys (cwd w) db_path) w w'.
Proof.
  unfold compact, compaction_keys, execute_vacuum_into, execute_vacuum.
  run_step.
  repeat (case_step; run_step); eexists; (split; [reflexivity|]); frame_goal.
Qed.

Lemma compactor_effect (o : Oracle) (db_path : Path) (w : World) :
  exists r w',
    compactor o db_path w = (r, w')
    /\ same_but (compaction_keys (cwd w) db_path) w w'
    /\ ((compactor_passes o /\ r = Ret tt)
        \/ (~ compactor_passes o /\ r = Exc OtherError)).
Proof.
  unfold compactor, compactor_passes.
  destruct (connect_raises o) eqn:Hc.
  { exists (Exc OtherError), w. run_step.
    repeat split. right. split; [intros (? & _); discriminate | reflexivity]. }
  set (w0 := {| fs := fs w; cwd := cwd w; con_open := true;
                events := events w |}).
  destruct (plan_refresh_effect o db_path w0) as (w1 & Hpr & Hs1 & _).
  assert (Hs01 : same_but (compaction_keys (cwd w) db_path) w w1).
  { destruct Hs1 as (H1 & H2 & H3). repeat split; [exact H1 | exact H2 |].
    intros k Hk. apply H3. cbn [In] in *. unfold compaction_keys in Hk.
    cbn [In] in Hk. tauto. }
  destruct (compact_effect o db_path w1) as (w2 & Hco & Hs2).
  assert (Hs02 : same_but (compaction_keys (cwd w) db_path) w w2).
  { apply (same_but_trans _ _ w1); [exact Hs01|].
    destruct Hs01 as (H1 & _). now rewrite <- H1. }
  destruct (commit_raises o) eqn:Hcm.
  { exists (Exc OtherError), w1. run_step. fold w0. rewrite Hpr.
    split; [reflexivity|]. split; [exact Hs01|].
    right. split; [intros (_ & ? & _); discriminate | reflexivity]. }
  destruct (final_close_raises o) eqn:Hfc.
  { exists (Exc OtherError), w2. run_step. fold w0. rewrite Hpr, Hco.
    split; [reflexivity|]. split; [exact Hs02|].
    right. split; [intros (_ & _ & ?); discriminate | reflexivity]. }
  exists (Ret tt),
    {| fs := fs w2; cwd := cwd w2; con_open := false; events := events w2 |}.
  run_step. fold w0. rewrite Hpr, Hco.
  split; [reflexivity|]. split; [|now left].
  repeat split; cbn [fs cwd events]; apply Hs02.
Qed.

Lemma framed_record_eq (t : Z) (s : str) (n : Z) (dump_bytes : bytes) :
  framed_record t s n dump_bytes
  = Some (framed (json_dumps (metadata t s n)) dump_bytes).
Proof.
  unfold framed_record. rewrite metadata_bytes_eq.
  unfold metadata_line, framed. now rewrite <- app_assoc.
Qed.

(** What lines 79-107 do, by the way they end. *)
Lemma dump_and_append_effect (o : Oracle) (db_path dump_path : Path) (w : World) :
  exists r w',
    dump_and_append gz o db_path dump_path w = (r, w')
    /\ cwd w' = cwd w
    /\ (forall k, k <> abspath (cwd w) dump_path -> fs w' !! k = fs w !! k)
    /\ match r with
       | Ret p =>
           p = dump_path
           /\ exists dump_bytes b mtime comp action,
               dump o = DumpOk dump_bytes
               /\ fs w !! abspath (cwd w) db_path = Some b
               /\ fs w' !! abspath (cwd w) dump_path
                  = Some (default [] (fs w !! abspath (cwd w) dump_path)
                          ++ gz_member gz mtime
                               (framed (json_dumps
                                          (metadata (now o) db_path
                                                    (Z.of_nat (length b))))
                                       dump_bytes))
               /\ events w'
                  = events w
                    ++ [RunDump db_path;
                        PrintSnapshot action (path_name dump_path)
                                      (Z.of_nat (length b)) comp]
       | Exc e =>
           events w' = events w ++ [RunDump db_path]
           /\ (e = CalledProcessError <-> dump o = DumpFailed)
           /\ (e = CalledProcessError -> fs w' = fs w)
           /\ (fs w' !! abspath (cwd w) dump_path
               = fs w !! abspath (cwd w) dump_path
               \/ exists more,
                   fs w' !! abspath (cwd w) dump_path
                   = Some (default [] (fs w !! abspath (cwd w) dump_path)
                           ++ more))
       end.
Proof.
  unfold dump_and_append, check_output_dump, stat_size. run_step.
  destruct (dump o) as [dump_bytes | |] eqn:Hd; run_step;
    [|exc_case..].
  destruct (fs w !! abspath (cwd w) db_path) as [b|] eqn:Hdb; run_step;
    [|exc_case].
  rewrite framed_record_eq. unfold gzip_write, append_file. run_step.
  destruct (gzip_append o) as [| |[part|]] eqn:Hg1; run_step.
  - rewrite lookup_insert_eq. ret_case.
  - destruct (gzip_append_fallback o) as [| |[part|]] eqn:Hg2; run_step.
    + rewrite lookup_insert_eq. ret_case.
    + exc_case.
    + exc_case. right. exists part. now rewrite lookup_insert_eq.
    + exc_case.
  - exc_case. right. exists part. now rewrite lookup_insert_eq.
  - exc_case.
Qed.

Context (E : Env).

Lemma optimize_and_dump_absent (db_path : Path) (w : World) :
  fs w !! abspath (cwd w) db_path = None ->
  optimize_and_dump gz E db_path w = (Ret None, w).
Proof.
  intros H. unfold optimize_and_dump.
  rewrite (bind_Ret _ _ _ _ _ (exists_absent _ _ H)). reflexivity.
Qed.

(** [optimize_and_dump] on a database that exists, by its two phases. *)
Lemma optimize_and_dump_present (db_path dump_path : Path) (w : World) (b0 : bytes) :
  fs w !! abspath (cwd w) db_path = Some b0 ->
  with_suffix db_path (lit ".sql.gz") = Some dump_path ->
  optimize_and_dump gz E db_path w =
  match compactor (oracle E db_path) db_path w with
  | (Ret _, w1) =>
      match dump_and_append gz (oracle E db_path) db_path dump_path w1 with
      | (Ret p, w2) => (Ret (Some p), w2)
      | (Exc CalledProcessError, w2) =>
          (Ret None, logged (PrintErrorDumping db_path) w2)
      | (Exc _, w2) => (Ret None, logged (PrintUnexpected db_path) w2)
      end
  | (Exc CalledProcessError, w1) =>
      (Ret None, logged (PrintErrorDumping db_path) w1)
  | (Exc _, w1) => (Ret None, logged (PrintUnexpected db_path) w1)
  end.
Proof.
  intros Hdb Hsuf. unfold optimize_and_dump.
  rewrite (bind_Ret _ _ _ _ _ (exists_present _ _ _ Hdb)). cbn [negb].
  rewrite Hsuf. unfold snapshot_body, report_failure, logged. run_step.
  destruct (compactor (oracle E db_path) db_path w) as [[[]|e] w1].
  - destruct (dump_and_append gz (oracle E db_path) db_path dump_path w1)
      as [[p|e] w2]; [reflexivity|]. now destruct e.
  - now destruct e.
Qed.

Lemma optimize_and_dump_raises (db_path : Path) (w : World) (b0 : bytes) :
  fs w !! abspath (cwd w) db_path = Some b0 ->
  path_name db_path = [] ->
  optimize_and_dump gz E db_path w = (Exc ValueError, w).
Proof.
  intros Hdb Hn. unfold optimize_and_dump.
  rewrite (bind_Ret _ _ _ _ _ (exists_present _ _ _ Hdb)). cbn [negb].
  unfold with_suffix. now rewrite Hn.
Qed.

End Steps.

Section Cycle.

Context (gz : Codec) (E : Env).

Lemma archive_not_compacted (cwd db_path dump_path : Path) :
  with_suffix db_path (lit ".sql.gz") = Some dump_path ->
  ~ In (abspath cwd dump_path) (compaction_keys cwd db_path).
Proof.
  intros Hdump. unfold compaction_keys.
  destruct (with_suffix db_path (lit ".vacuuming")) as [temp_file|] eqn:Htemp;
    cbn [In].
  - pose proof (archive_not_database cwd _ _ Hdump).
    pose proof (archive_not_temp_file cwd _ _ _ Hdump Htemp).
    pose proof (archive_not_temp_name cwd _ _ _ Hdump Htemp).
    intuition congruence.
  - pose proof (archive_not_database cwd _ _ Hdump). intuition congruence.
Qed.

(** Every call on an existing database with a file name returns, in one of
    the four ways of [cycle]. *)
Lemma optimize_and_dump_cycle (db_path dump_path : Path) (w : World) (b0 : bytes) :
  fs w !! abspath (cwd w) db_path = Some b0 ->
  with_suffix db_path (lit ".sql.gz") = Some dump_path ->
  exists out w',
    optimize_and_dump gz E db_path w = (Ret out, w')
    /\ cwd w' = cwd w
    /\ cycle gz (oracle E db_path) db_path dump_path w w' out.
Proof.
  intros Hdb Hsuf. rewrite (optimize_and_dump_present gz E _ _ _ _ Hdb Hsuf).
  set (o := oracle E db_path).
  pose proof (archive_not_compacted (cwd w) _ _ Hsuf) as Harch.
  pose proof (archive_not_database (cwd w) _ _ Hsuf) as Hneq.
  destruct (compactor_effect o db_path w)
    as (r & w1 & -> & (Hc1 & He1 & Hf1) & [(Hp & ->) | (Hp & ->)]).
  - destruct (dump_and_append_effect gz o db_path dump_path w1)
      as (r2 & w2 & -> & Hc2 & Hf2 & Hcase).
    rewrite Hc1 in *.
    destruct r2 as [p | e].
    + destruct Hcase as (-> & dump_bytes & b & mtime & comp & action
                         & Hd & Hb & Ha & Hev).
      eexists _, _. split; [reflexivity|]. split; [congruence|].
      eapply cycle_appended; try eassumption.
      * rewrite Hf2 by congruence. exact Hb.
      * rewrite Ha, (Hf1 _ Harch). reflexivity.
      * rewrite Hev, He1. reflexivity.
    + destruct Hcase as (Hev & Hiff & Hsame & Hpre).
      destruct e.
      * eexists _, _. split; [reflexivity|]. split; [exact Hc2|].
        apply cycle_dump_failed; [exact Hp | now apply Hiff | |].
        -- unfold logged. cbn. rewrite Hev, He1, <- app_assoc. reflexivity.
        -- unfold logged. cbn. rewrite Hsame by reflexivity. now apply Hf1.
      * eexists _, _. split; [reflexivity|]. split; [exact Hc2|].
        apply cycle_other_failed; [exact Hp | | |].
        -- intros Hd. apply Hiff in Hd. discriminate.
        -- unfold logged. cbn. rewrite Hev, He1, <- app_assoc. reflexivity.
        -- unfold logged. cbn. rewrite <- (Hf1 _ Harch). exact Hpre.
      * eexists _, _. split; [reflexivity|]. split; [exact Hc2|].
        apply cycle_other_failed; [exact Hp | | |].
        -- intros Hd. apply Hiff in Hd. discriminate.
        -- unfold logged. cbn. rewrite Hev, He1, <- app_assoc. reflexivity.
        -- unfold logged. cbn. rewrite <- (Hf1 _ Harch). exact Hpre.
      * eexists _, _. split; [reflexivity|]. split; [exact Hc2|].
        apply cycle_other_failed; [exact Hp | | |].
        -- intros Hd. apply Hiff in Hd. discriminate.
        -- unfold logged. cbn. rewrite Hev, He1, <- app_assoc. reflexivity.
        -- unfold logged. cbn. rewrite <- (Hf1 _ Harch). exact Hpre.
  - eexists _, _. split; [reflexivity|]. split; [exact Hc1|].
    apply cycle_compactor_failed.
    + exact Hp.
    + unfold logged. cbn. now rewrite He1.
    + unfold logged. cbn. now apply Hf1.
Qed.

End Cycle.

(** ** The loop of [main] *)

Section Loop.

Context (gz : Codec) (E : Env).

(** A call on a path with a file name returns, keeps the working
    directory and adds events of the snapshot direction only. *)
Lemma optimize_and_dump_returns (db_path : Path) (w : World) :
  path_name db_path <> [] ->
  exists out w' evs,
    optimize_and_dump gz E db_path w = (Ret out, w')
    /\ cwd w' = cwd w
    /\ events w' = events w ++ evs
    /\ forallb snapshot_event evs = true.
Proof.
  intros Hname.
  destruct (fs w !! abspath (cwd w) db_path) as [b0|] eqn:Hdb.
  - destruct (with_suffix_some db_path (lit ".sql.gz") Hname) as [dump_path Hs].
    destruct (optimize_and_dump_cycle gz E _ _ _ _ Hdb Hs)
      as (out & w' & Hrun & Hcwd & Hcyc).
    destruct Hcyc; eexists _, _, _;
      (split; [exact Hrun|]); (split; [exact Hcwd|]);
      (split; [eassumption|]); reflexivity.
  - exists None, w, []. rewrite optimize_and_dump_absent by assumption.
    now rewrite app_nil_r.
Qed.


Lemma snapshot_loop_returns (ROOT : Path) (names : list str)
    (produced : list Path) (w : World) :
  Forall (fun n => path_name (joinpath ROOT n) <> []) names ->
  exists produced' w' evs,
    snapshot_loop gz E ROOT names produced w = (Ret produced', w')
    /\ events w' = events w ++ evs
    /\ forallb snapshot_event evs = true.
Proof.
  intros Hnames. revert produced w.
  induction Hnames as [|name names Hname _ IH]; intros produced w.
  - exists produced, w, []. now rewrite app_nil_r.
  - destruct (optimize_and_dump_returns (joinpath ROOT name) w Hname)
      as (out & w1 & evs1 & Hrun & _ & Hev1 & Hs1).
    cbn [snapshot_loop]. rewrite (bind_Ret _ _ _ _ _ Hrun).
    destruct out as [p|];
      [destruct (IH (produced ++ [p]) w1) as (pr & w2 & evs2 & Hl & Hev2 & Hs2)
      |destruct (IH produced w1) as (pr & w2 & evs2 & Hl & Hev2 & Hs2)];
      exists pr, w2, (evs1 ++ evs2); rewrite Hl, Hev2, Hev1, <- app_assoc;
      repeat split; rewrite forallb_app, Hs1, Hs2; reflexivity.
Qed.


Lemma joinpath_name (ROOT : Path) (name : str) (c : N) :
  last name = Some c -> c <> SLASH -> path_name (joinpath ROOT name) <> [].
Proof.
  intros Hl Hc.
  assert (H : last (joinpath ROOT name) = Some c).
  { unfold joinpath. destruct (last ROOT) as [d|]; [|exact Hl].
    destruct (d =? SLASH).
    - now rewrite last_app, Hl.
    - change (ROOT ++ SLASH :: name) with (ROOT ++ [SLASH] ++ name).
      now rewrite !last_app, Hl. }
  apply last_path_name in H; [|exact Hc].
  intros Hnil. rewrite Hnil in H. discriminate.
Qed.

Lemma DB_FILES_named (ROOT : Path) :
  Forall (fun n => path_name (joinpath ROOT n) <> []) DB_FILES.
Proof.
  unfold DB_FILES. repeat constructor.
  - apply (joinpath_name _ _ 98); [reflexivity | discriminate].
  - apply (joinpath_name _ _ 98); [reflexivity | discriminate].
Qed.

End Loop.

(** * The claims *)

Section Claims.

Context (gz : Codec) (E : Env).

(** C3.  When no line of the decoded archive has an opening brace as its
    first character that is not white space, [restore_latest] takes the
    whole content as the dump and replays all of it. *)
Theorem legacy_archive_replayed_whole (gz_path db_path : Path) (w : World)
    (b plain : bytes) (content : str) :
  fs w !! abspath (cwd w) gz_path = Some b ->
  gunzip gz b = Some plain ->
  decode_text gz plain = Some content ->
  Forall (fun line => first_nonspace line <> Some 123) (split_nl content) ->
  replay_connect_raises (replay E db_path) = false ->
  sql_dump_of content = content
  /\ exists evs,
      events (snd (restore_latest gz E gz_path db_path w))
      = events w ++ ExecuteScript db_path content :: evs.
Proof.
  intros Hf Hg Hd Hlines Hc.
  assert (Hlegacy : sql_dump_of content = content)
    by (apply sql_dump_of_legacy; now apply List.Forall_forall).
  split; [exact Hlegacy|].
  destruct (restore_latest_replays gz E _ db_path _ _ _ _ Hf Hg Hd Hc)
    as [evs Hev].
  exists evs. now rewrite Hev, Hlegacy.
Qed.

(** C2, as amended.  When the decoded archive is the concatenation of
    framed records, the last of them with a metadata line that is a
    header and a dump body without header lines, [restore_latest] replays
    what follows the last header line: the body of the last record and the
    two line feeds that end the record. *)
Theorem latest_record_replayed_with_delimiter (gz_path db_path : Path)
    (w : World) (b plain : bytes) (records : list (str * str))
    (meta body : str) :
  fs w !! abspath (cwd w) gz_path = Some b ->
  gunzip gz b = Some plain ->
  decode_text gz plain = Some (framed_all (records ++ [(meta, body)])) ->
  ~ In LF meta ->
  first_nonspace meta = Some 123 ->
  Forall (fun line => first_nonspace line <> Some 123) (split_nl body) ->
  replay_connect_raises (replay E db_path) = false ->
  sql_dump_of (framed_all (records ++ [(meta, body)])) = body ++ [LF; LF]
  /\ exists evs,
      events (snd (restore_latest gz E gz_path db_path w))
      = events w ++ ExecuteScript db_path (body ++ [LF; LF]) :: evs.
Proof.
  intros Hf Hg Hd Hmeta Hhead Hbody Hc.
  assert (Hlast : sql_dump_of (framed_all (records ++ [(meta, body)]))
                  = body ++ [LF; LF]).
  { unfold framed_all. rewrite flat_map_app. cbn [flat_map fst snd].
    rewrite app_nil_r. apply sql_dump_of_last_record; try assumption.
    - apply framed_all_ends.
    - now apply List.Forall_forall. }
  split; [exact Hlast|].
  destruct (restore_latest_replays gz E _ db_path _ _ _ _ Hf Hg Hd Hc)
    as [evs Hev].
  exists evs. now rewrite Hev, Hlast.
Qed.

(** C4.  A call never shortens or rewrites the archive, however it ends;
    a call that returns the archive has appended exactly one gzip member,
    whose content is one framed record, to what the file held (to nothing
    when the file did not exist), so that the decompressed content is the
    old content followed by that record.  The only assumption on gzip is
    that members concatenate. *)
Theorem append_only (db_path dump_path : Path) (w : World) :
  with_suffix db_path (lit ".sql.gz") = Some dump_path ->
  (forall a old mtime x,
      gunzip gz a = Some old ->
      gunzip gz (a ++ gz_member gz mtime x) = Some (old ++ x)) ->
  let arch := abspath (cwd w) dump_path in
  let before := default [] (fs w !! arch) in
  let run := optimize_and_dump gz E db_path w in
  (forall old, fs w !! arch = Some old ->
               exists more, fs (snd run) !! arch = Some (old ++ more))
  /\ (fst run = Ret (Some dump_path) ->
      exists t size dump_bytes mtime,
        let record := framed (json_dumps (metadata t db_path size)) dump_bytes in
        fs (snd run) !! arch = Some (before ++ gz_member gz mtime record)
        /\ record <> []
        /\ forall old,
            gunzip gz before = Some old ->
            gunzip gz (before ++ gz_member gz mtime record)
            = Some (old ++ record)).
Proof.
  intros Hsuf Hcat arch before run. subst arch before run.
  destruct (fs w !! abspath (cwd w) db_path) as [b0|] eqn:Hdb.
  - destruct (optimize_and_dump_cycle gz E _ _ _ _ Hdb Hsuf)
      as (out & w' & -> & Hcwd & Hcyc). cbn [fst snd].
    split.
    + intros old Hold.
      destruct Hcyc as [_ _ Hsame | _ _ _ Hsame | _ _ _ [Hsame | [more Hmore]]
                       | dump_bytes b mtime comp action _ _ _ Happ _].
      * exists []. now rewrite Hsame, app_nil_r.
      * exists []. now rewrite Hsame, app_nil_r.
      * exists []. now rewrite Hsame, app_nil_r.
      * exists more. now rewrite Hmore, Hold.
      * eexists. rewrite Happ, Hold. reflexivity.
    + intros Hret.
      destruct Hcyc as [| | | dump_bytes b mtime comp action _ _ _ Happ _];
        try discriminate.
      exists (now (oracle E db_path)), (Z.of_nat (length b)), dump_bytes, mtime.
      cbv zeta. split; [exact Happ|]. split.
      * unfold framed, json_dumps. discriminate.
      * intros old Hold. now apply Hcat.
  - rewrite optimize_and_dump_absent by assumption. cbn [fst snd]. split.
    + intros old Hold. exists []. now rewrite app_nil_r.
    + discriminate.
Qed.

(** C1, the general fact behind it.  In a call that returns the archive
    the size in the metadata line is the length of the database file as
    the call leaves it, that is after the compaction. *)
Lemma size_field_is_size_after_call (db_path dump_path : Path) (w w' : World) :
  with_suffix db_path (lit ".sql.gz") = Some dump_path ->
  optimize_and_dump gz E db_path w = (Ret (Some dump_path), w') ->
  exists b dump_bytes mtime,
    fs w' !! abspath (cwd w) db_path = Some b
    /\ fs w' !! abspath (cwd w) dump_path
       = Some (default [] (fs w !! abspath (cwd w) dump_path)
               ++ gz_member gz mtime
                    (framed (json_dumps (metadata (now (oracle E db_path))
                                                  db_path
                                                  (Z.of_nat (length b))))
                            dump_bytes)).
Proof.
  intros Hsuf Hrun.
  destruct (fs w !! abspath (cwd w) db_path) as [b0|] eqn:Hdb.
  - destruct (optimize_and_dump_cycle gz E _ _ _ _ Hdb Hsuf)
      as (out & w2 & Hrun2 & _ & Hcyc).
    rewrite Hrun in Hrun2. injection Hrun2 as <- <-.
    inversion Hcyc; subst. eauto.
  - rewrite optimize_and_dump_absent in Hrun by assumption. discriminate.
Qed.

(** C5, as amended.  A call on an existing database returns.  When the
    first connection, the commit after the hint and the last [close] do
    not raise, the dump command is run whatever the plan refresh, [VACUUM
    INTO], the [close] before the rename, the rename, the second
    connection, the in-place [VACUUM] and its commit do.  When one of the
    three raises, the call logs an unexpected error and returns [None]
    without running the dump. *)
Theorem compaction_failures_do_not_stop_dump (db_path dump_path : Path)
    (w : World) (b0 : bytes) :
  fs w !! abspath (cwd w) db_path = Some b0 ->
  with_suffix db_path (lit ".sql.gz") = Some dump_path ->
  exists out w',
    optimize_and_dump gz E db_path w = (Ret out, w')
    /\ (compactor_passes (oracle E db_path) ->
        exists evs, events w' = events w ++ RunDump db_path :: evs)
    /\ (~ compactor_passes (oracle E db_path) ->
        out = None /\ events w' = events w ++ [PrintUnexpected db_path]).
Proof.
  intros Hdb Hsuf.
  destruct (optimize_and_dump_cycle gz E _ _ _ _ Hdb Hsuf)
    as (out & w' & Hrun & _ & Hcyc).
  exists out, w'. split; [exact Hrun|].
  destruct Hcyc; (split; [intros Hp | intros Hn]); try contradiction;
    eauto.
Qed.

(** C6, as amended.  On a missing database the call returns [None] and
    changes nothing.  When the dump command exits with an error the call
    logs it on the error stream, appends nothing to the archive and also
    returns [None]: the two cases differ in the log, not in the returned
    value. *)
Theorem absent_and_failed_dump (db_path dump_path : Path) (w : World) :
  (fs w !! abspath (cwd w) db_path = None ->
   optimize_and_dump gz E db_path w = (Ret None, w))
  /\ (forall b0,
        fs w !! abspath (cwd w) db_path = Some b0 ->
        with_suffix db_path (lit ".sql.gz") = Some dump_path ->
        compactor_passes (oracle E db_path) ->
        dump (oracle E db_path) = DumpFailed ->
        exists w',
          optimize_and_dump gz E db_path w = (Ret None, w')
          /\ events w'
             = events w ++ [RunDump db_path; PrintErrorDumping db_path]
          /\ fs w' !! abspath (cwd w) dump_path
             = fs w !! abspath (cwd w) dump_path).
Proof.
  split; [apply optimize_and_dump_absent|].
  intros b0 Hdb Hsuf Hp Hd.
  destruct (optimize_and_dump_cycle gz E _ _ _ _ Hdb Hsuf)
    as (out & w' & Hrun & _ & Hcyc).
  destruct Hcyc; try contradiction; try congruence.
  exists w'. auto.
Qed.


(** C10.  With a first argument [--restore] and a number of arguments
    other than four, or with a first argument that is none of
    [--restore], [-h] and [--help], [main] is the run over the configured
    databases: it returns 0 and its events are those of the snapshot
    direction, neither a usage message nor any step of a restore. *)
Theorem unrecognised_arguments_run_snapshots (ROOT : Path) (argv : list str)
    (w : World) :
  (1 < length argv)%nat ->
  (nth 1 argv [] = lit "--restore" /\ length argv <> 4%nat)
  \/ (nth 1 argv [] <> lit "--restore" /\ nth 1 argv [] <> lit "-h"
      /\ nth 1 argv [] <> lit "--help") ->
  main gz E ROOT argv w = snapshot_all gz E ROOT DB_FILES w
  /\ exists w' evs,
      main gz E ROOT argv w = (Ret 0%Z, w')
      /\ events w' = events w ++ evs
      /\ forallb snapshot_event evs = true.
Proof.
  intros Hlen Harg.
  assert (Hmain : main gz E ROOT argv w = snapshot_all gz E ROOT DB_FILES w).
  { unfold main, main_with.
    apply Nat.ltb_lt in Hlen. rewrite Hlen.
    destruct Harg as [[Hr Hn] | (Hr & Hh & Hhelp)].
    - rewrite Hr. apply Nat.eqb_neq in Hn. rewrite Hn, andb_false_r.
      reflexivity.
    - rewrite bool_decide_eq_false_2 by exact Hr. cbn [andb].
      rewrite bool_decide_eq_false_2; [reflexivity|].
      rewrite !elem_of_cons, elem_of_nil. tauto. }
  split; [exact Hmain|]. rewrite Hmain.
  pose proof (DB_FILES_named ROOT) as Hnames.
  destruct (snapshot_loop_returns gz E ROOT DB_FILES [] w Hnames)
    as (produced & w' & evs & Hl & Hev & Hs).
  unfold snapshot_all. rewrite (bind_Ret _ _ _ _ _ Hl).
  destruct produced as [|p ps]; run_step;
    eexists _, _; (split; [reflexivity|]); cbn [events];
    rewrite Hev, <- app_assoc; (split; [reflexivity|]);
    rewrite forallb_app, Hs; reflexivity.
Qed.



End Claims.

Lemma legacy_archive_replayed_whole_witness :
  sql_dump_of dump0 = dump0
  /\ exists evs,
      events (snd (restore_latest stored calm archive0 target0 legacy_world))
      = events legacy_world ++ ExecuteScript target0 dump0 :: evs.
Proof.
  apply (legacy_archive_replayed_whole stored calm archive0 target0
           legacy_world dump0 dump0 dump0).
  - vm_compute. reflexivity.
  - reflexivity.
  - reflexivity.
  - vm_compute. repeat constructor; discriminate.
  - reflexivity.
Defined.

Lemma latest_record_replayed_with_delimiter_witness :
  sql_dump_of (framed_all ([(meta0, dump0)] ++ [(meta0, dump0)]))
  = dump0 ++ [LF; LF]
  /\ exists evs,
      events (snd (restore_latest stored calm archive0 target0 world2))
      = events world2 ++ ExecuteScript target0 (dump0 ++ [LF; LF]) :: evs.
Proof.
  apply (latest_record_replayed_with_delimiter stored calm archive0 target0
           world2
           (framed meta0 dump0 ++ framed meta0 dump0)
           (framed meta0 dump0 ++ framed meta0 dump0)
           [(meta0, dump0)] meta0 dump0).
  - vm_compute. reflexivity.
  - reflexivity.
  - vm_compute. reflexivity.
  - vm_compute. intuition discriminate.
  - reflexivity.
  - vm_compute. repeat constructor; discriminate.
  - reflexivity.
Defined.

(** C2, as stated, fails on the archive that one snapshot of [world0]
    writes: the text that is replayed is the dump followed by two line
    feeds, not the dump. *)
Lemma latest_record_body_not_exact :
  fs world1 !! archive0
  = Some (framed (meta0) dump0)
  /\ events (snd (restore_latest stored calm archive0 target0 world1))
     = events world1
       ++ [ExecuteScript target0 (dump0 ++ [LF; LF]);
           PrintRestored (lit "restored.db") (lit "database.sql.gz")]
  /\ dump0 ++ [LF; LF] <> dump0.
Proof.
  split; [vm_compute; reflexivity|].
  split; [vm_compute; reflexivity|].
  vm_compute. discriminate.
Qed.

(** C1 on [world0]: the database file has eight bytes when the call
    starts, the compaction leaves four, and the metadata line written to
    the archive says four. *)
Theorem size_field_holds_compacted_size :
  fs world0 !! db0 = Some image0
  /\ length image0 = 8%nat
  /\ fst (optimize_and_dump stored calm db0 world0) = Ret (Some archive0)
  /\ fs world1 !! archive0 = Some (meta0 ++ LF :: dump0 ++ [LF; LF])
  /\ parse_metadata_line (meta0 ++ [LF])
     = Some {| timestamp := 1700000000; source := db0;
               size_before_optimization := 4 |}.
Proof. repeat split; vm_compute; reflexivity. Qed.

Lemma append_only_witness :
  (forall old, fs world1 !! archive0 = Some old ->
               exists more, fs world2 !! archive0 = Some (old ++ more))
  /\ (fst (optimize_and_dump stored calm db0 world1) = Ret (Some archive0) ->
      exists t size dump_bytes mtime,
        fs world2 !! archive0
        = Some (framed meta0 dump0
                ++ gz_member stored mtime
                     (framed (json_dumps (metadata t db0 size)) dump_bytes))).
Proof.
  destruct (append_only stored calm db0 archive0 world1) as [Hkeep Happ].
  - vm_compute. reflexivity.
  - intros a old mtime x [= ->]. reflexivity.
  - split.
    + exact Hkeep.
    + intros Hret. destruct (Happ Hret) as (t & size & d & m & H & _).
      exists t, size, d, m. exact H.
Defined.

Lemma compaction_failures_do_not_stop_dump_witness :
  exists out w',
    optimize_and_dump stored rename_fails db0 world0 = (Ret out, w')
    /\ exists evs, events w' = events world0 ++ RunDump db0 :: evs.
Proof.
  destruct (compaction_failures_do_not_stop_dump stored rename_fails
              db0 archive0 world0 image0) as (out & w' & Hrun & Hpass & _).
  - vm_compute. reflexivity.
  - vm_compute. reflexivity.
  - exists out, w'. split; [exact Hrun|]. apply Hpass.
    repeat split; reflexivity.
Defined.

(** C5, as stated, fails when the first connection raises: the call logs
    an unexpected error and the dump command is never run. *)
Lemma connection_failure_skips_dump :
  connect_raises (oracle connect_fails db0) = true
  /\ optimize_and_dump stored connect_fails db0 world0
     = (Ret None, logged (PrintUnexpected db0) world0)
  /\ ~ In (RunDump db0)
          (events (snd (optimize_and_dump stored connect_fails db0 world0))).
Proof.
  split; [reflexivity|]. split; [vm_compute; reflexivity|].
  vm_compute. intuition discriminate.
Qed.

Lemma absent_and_failed_dump_witness :
  optimize_and_dump stored dump_fails db0 empty_world = (Ret None, empty_world)
  /\ exists w',
      optimize_and_dump stored dump_fails db0 world0 = (Ret None, w')
      /\ events w' = events world0 ++ [RunDump db0; PrintErrorDumping db0]
      /\ fs w' !! abspath (cwd world0) archive0
         = fs world0 !! abspath (cwd world0) archive0.
Proof.
  split.
  - apply (proj1 (absent_and_failed_dump stored dump_fails db0 archive0
                    empty_world)).
    vm_compute. reflexivity.
  - apply (proj2 (absent_and_failed_dump stored dump_fails db0 archive0
                    world0) image0).
    + vm_compute. reflexivity.
    + vm_compute. reflexivity.
    + repeat split; reflexivity.
    + reflexivity.
Defined.

(** C6, as stated, fails: a failing dump command and a missing database
    give the caller the same value. *)
Lemma extraction_failure_returns_like_absent :
  fs empty_world !! db0 = None
  /\ fs world0 !! db0 = Some image0
  /\ dump (oracle dump_fails db0) = DumpFailed
  /\ fst (optimize_and_dump stored dump_fails db0 world0) = Ret None
  /\ fst (optimize_and_dump stored dump_fails db0 empty_world) = Ret None.
Proof. repeat split; vm_compute; reflexivity. Qed.






Lemma unrecognised_arguments_run_snapshots_witness :
  main stored calm (lit "/r") [lit "snap.py"; lit "--restore"; archive0] world0
  = snapshot_all stored calm (lit "/r") DB_FILES world0
  /\ exists w' evs,
      main stored calm (lit "/r") [lit "snap.py"; lit "--restore"; archive0]
           world0 = (Ret 0%Z, w')
      /\ events w' = events world0 ++ evs
      /\ forallb snapshot_event evs = true.
Proof.
  apply (unrecognised_arguments_run_snapshots stored calm (lit "/r")
           [lit "snap.py"; lit "--restore"; archive0] world0).
  - cbn. lia.
  - left. split; [reflexivity | cbn; lia].
Defined.

(** * Further properties of the script *)

(** ** What [restore_latest] takes from a text *)

Lemma split_nl_lines_no_LF (s : str) : Forall (fun l => ~ In LF l) (split_nl s).
Proof.
  induction s as [|c r IH]; cbn [split_nl].
  - repeat constructor. tauto.
  - destruct (N.eqb_spec c LF) as [-> | Hne].
    + constructor; [cbn; tauto | exact IH].
    + pose proof (split_nl_nonempty r) as Hn.
      destruct (split_nl r) as [|l ls]; [congruence|].
      inversion IH as [|? ? Hl Hls]; subst. constructor; [|exact Hls].
      intros [Heq | Hin]; [congruence | contradiction].
Qed.

Lemma split_join_nl (ls : list str) :
  ls <> [] -> Forall (fun l => ~ In LF l) ls -> split_nl (join_nl ls) = ls.
Proof.
  induction ls as [|l ls IH]; intros Hne Hall; [congruence|].
  inversion Hall as [|? ? Hl Hls]; subst.
  destruct ls as [|l2 ls].
  - cbn [join_nl]. now apply split_nl_one_line.
  - change (join_nl (l :: l2 :: ls)) with (l ++ LF :: join_nl (l2 :: ls)).
    rewrite split_nl_app_LF, (split_nl_one_line l) by assumption.
    rewrite IH by (assumption || discriminate). reflexivity.
Qed.

Lemma join_nl_app (a b : list str) :
  a <> [] -> b <> [] -> join_nl (a ++ b) = join_nl a ++ LF :: join_nl b.
Proof.
  induction a as [|l a IH]; intros Ha Hb; [congruence|].
  destruct a as [|l2 a].
  - destruct b; [congruence | reflexivity].
  - change (join_nl ((l :: l2 :: a) ++ b))
      with (l ++ LF :: join_nl ((l2 :: a) ++ b)).
    rewrite IH by (assumption || discriminate).
    change (join_nl (l :: l2 :: a)) with (l ++ LF :: join_nl (l2 :: a)).
    now rewrite <- app_assoc.
Qed.

(** The last index of line 142 cuts the lines at the last header. *)
Lemma last_json_idx_split (i j : nat) (lines : list str) :
  last (json_line_indices_from i lines) = Some j ->
  exists before h after,
    lines = before ++ h :: after
    /\ j = (i + length before)%nat
    /\ is_json_line h = true
    /\ Forall (fun l => is_json_line l = false) after.
Proof.
  revert i. induction lines as [|l ls IH]; intros i; cbn [json_line_indices_from].
  - discriminate.
  - destruct (is_json_line l) eqn:Hl.
    + rewrite last_cons.
      destruct (last (json_line_indices_from (S i) ls)) as [k|] eqn:Hk.
      * intros [= <-]. destruct (IH _ Hk) as (b & h & a & -> & -> & Hh & Ha).
        exists (l :: b), h, a. repeat split; try assumption. cbn. lia.
      * intros [= <-]. exists [], l, ls. repeat split; [cbn; lia | exact Hl |].
        clear IH Hl. revert Hk. generalize (S i).
        induction ls as [|x ls IHl]; intros n Hk; [constructor|].
        cbn [json_line_indices_from] in Hk.
        destruct (is_json_line x) eqn:Hx.
        -- rewrite last_cons in Hk.
           now destruct (last (json_line_indices_from (S n) ls)).
        -- constructor; [exact Hx | now apply (IHl (S n))].
    + intros Hk. destruct (IH _ Hk) as (b & h & a & -> & -> & Hh & Ha).
      exists (l :: b), h, a. repeat split; try assumption. cbn. lia.
Qed.

Lemma no_header_indices (i : nat) (lines : list str) :
  Forall (fun l => is_json_line l = false) lines ->
  json_line_indices_from i lines = [].
Proof.
  intros H. revert i. induction H as [|l ls Hl _ IH]; intros i; [reflexivity|].
  cbn [json_line_indices_from]. rewrite Hl. apply IH.
Qed.

(** [sql_dump_of], by the two branches of line 139. *)
Lemma sql_dump_of_cases (content : str) :
  (Forall (fun l => is_json_line l = false) (split_nl content)
   /\ sql_dump_of content = content)
  \/ exists before h after,
      split_nl content = before ++ h :: after
      /\ is_json_line h = true
      /\ Forall (fun l => is_json_line l = false) after
      /\ sql_dump_of content = join_nl after.
Proof.
  unfold sql_dump_of, json_line_indices.
  destruct (last (json_line_indices_from 0 (split_nl content))) as [j|] eqn:Hj.
  - right. destruct (last_json_idx_split _ _ _ Hj) as (b & h & a & Hs & -> & Hh & Ha).
    exists b, h, a. repeat split; try assumption.
    rewrite Hs. cbn [Nat.add].
    replace (b ++ h :: a) with ((b ++ [h]) ++ a) by (now rewrite <- app_assoc).
    replace (length b + 1)%nat with (length (b ++ [h]))
      by (rewrite length_app; reflexivity).
    now rewrite drop_app_length.
  - left. split; [|reflexivity].
    apply last_None in Hj. revert Hj. generalize 0%nat.
    induction (split_nl content) as [|l ls IH]; intros n Hj; [constructor|].
    cbn [json_line_indices_from] in Hj.
    destruct (is_json_line l) eqn:Hl; [discriminate|].
    constructor; [exact Hl | now apply (IH (S n))].
Qed.

(** X1.  The text that is replayed is an end of the decoded archive:
    [restore_latest] drops a beginning and changes nothing else. *)
Theorem replayed_text_is_suffix (content : str) :
  exists dropped, content = dropped ++ sql_dump_of content.
Proof.
  destruct (sql_dump_of_cases content)
    as [[_ ->] | (b & h & a & Hs & _ & _ & ->)].
  - now exists [].
  - assert (Hc : content = join_nl (b ++ h :: a))
      by (rewrite <- Hs; symmetry; apply join_split_nl).
    destruct a as [|l a].
    + exists (join_nl (b ++ [h])). cbn [join_nl]. now rewrite app_nil_r.
    + exists (join_nl (b ++ [h]) ++ [LF]). rewrite Hc at 1.
      replace (b ++ h :: l :: a) with ((b ++ [h]) ++ l :: a)
        by (now rewrite <- app_assoc).
      rewrite join_nl_app; [|now destruct b|discriminate].
      now rewrite <- app_assoc.
Qed.

(** X2.  No line of the replayed text passes the header test, whatever the
    archive holds; so taking the latest dump of a replayed text changes
    nothing. *)
Theorem replayed_text_has_no_header (content : str) :
  Forall (fun l => is_json_line l = false) (split_nl (sql_dump_of content))
  /\ sql_dump_of (sql_dump_of content) = sql_dump_of content.
Proof.
  assert (H : Forall (fun l => is_json_line l = false)
                     (split_nl (sql_dump_of content))).
  { destruct (sql_dump_of_cases content)
      as [[Hno ->] | (b & h & a & Hs & _ & Ha & ->)]; [exact Hno|].
    destruct a as [|l a]; [repeat constructor|].
    rewrite split_join_nl; [exact Ha | discriminate |].
    pose proof (split_nl_lines_no_LF content) as Hlf. rewrite Hs in Hlf.
    apply Forall_app in Hlf as [_ Hlf]. now inversion Hlf. }
  split; [exact H|].
  unfold sql_dump_of at 1, json_line_indices.
  now rewrite no_header_indices.
Qed.

(** X3.  Whatever the archive begins with, a legacy dump or anything else
    that is empty or ends in a line feed, once framed records follow it
    the text that is replayed is the body of the last record and its two
    line feeds. *)
Theorem legacy_then_framed (legacy : str) (records : list (str * str))
    (meta body : str) :
  legacy = [] \/ (exists p, legacy = p ++ [LF]) ->
  ~ In LF meta ->
  first_nonspace meta = Some 123 ->
  Forall (fun line => first_nonspace line <> Some 123) (split_nl body) ->
  sql_dump_of (legacy ++ framed_all (records ++ [(meta, body)]))
  = body ++ [LF; LF].
Proof.
  intros Hleg Hmeta Hhead Hbody.
  unfold framed_all. rewrite flat_map_app. cbn [flat_map fst snd].
  rewrite app_nil_r, app_assoc.
  apply sql_dump_of_last_record; try assumption.
  - destruct (framed_all_ends records) as [Hr | [p Hr]];
      unfold framed_all in Hr; rewrite Hr.
    + now rewrite app_nil_r.
    + right. exists (legacy ++ p). now rewrite app_assoc.
  - now apply List.Forall_forall.
Qed.

Lemma legacy_then_framed_witness :
  sql_dump_of (dump0 ++ framed_all ([(meta0, lit "SELECT 1;")] ++ [(meta0, dump0)]))
  = dump0 ++ [LF; LF].
Proof.
  apply (legacy_then_framed dump0 [(meta0, lit "SELECT 1;")] meta0 dump0).
  - right. exists (lit "BEGIN TRANSACTION;" ++ LF
                   :: lit "CREATE TABLE t(a INTEGER, b TEXT);"
                   ++ LF :: lit "COMMIT;"). vm_compute. reflexivity.
  - vm_compute. intuition discriminate.
  - reflexivity.
  - vm_compute. repeat constructor; discriminate.
Defined.

(** X5.  For every timestamp, source and size, also for a source that
    UTF-8 cannot encode, the metadata line is ASCII, so line 89 does not
    raise and changes nothing; the line passes the header test of
    [restore_latest], and in the framed record it is a line of its own. *)
Theorem metadata_line_is_header_line (t : Z) (s : str) (n : Z)
    (dump_bytes : bytes) :
  encode_utf8 (metadata_line t s n) = Some (metadata_line t s n)
  /\ is_json_line (json_dumps (metadata t s n)) = true
  /\ split_nl (framed (json_dumps (metadata t s n)) dump_bytes)
     = json_dumps (metadata t s n) :: split_nl (dump_bytes ++ [LF; LF]).
Proof.
  split; [apply metadata_bytes_eq|].
  split; [now apply is_json_line_first_nonspace|].
  unfold framed. rewrite split_nl_app_LF.
  rewrite split_nl_one_line; [reflexivity|].
  apply printable_no_LF, json_dumps_printable.
Qed.

Section Roundtrip.

Context (gz : Codec) (E : Env).

(** A call that returns the archive: the database existed, the archive is
    its path with the suffix replaced, and the call ended by an append. *)
Lemma returned_archive (db_path dump_path : Path) (w w1 : World) :
  optimize_and_dump gz E db_path w = (Ret (Some dump_path), w1) ->
  with_suffix db_path (lit ".sql.gz") = Some dump_path
  /\ cwd w1 = cwd w
  /\ cycle gz (oracle E db_path) db_path dump_path w w1 (Some dump_path).
Proof.
  intros Hrun.
  destruct (fs w !! abspath (cwd w) db_path) as [b0|] eqn:Hdb.
  - destruct (with_suffix db_path (lit ".sql.gz")) as [d|] eqn:Hsuf.
    + destruct (optimize_and_dump_cycle gz E _ _ _ _ Hdb Hsuf)
        as (out & w' & Hrun' & Hcwd & Hcyc).
      rewrite Hrun in Hrun'. injection Hrun' as <- <-.
      inversion Hcyc; subst. repeat split; try assumption.
    + unfold optimize_and_dump in Hrun.
      rewrite (bind_Ret _ _ _ _ _ (exists_present _ _ _ Hdb)) in Hrun.
      cbn [negb] in Hrun. rewrite Hsuf in Hrun. discriminate.
  - rewrite optimize_and_dump_absent in Hrun by assumption. discriminate.
Qed.

(** X6.  A snapshot followed by a restore from the archive it returned
    replays the dump of that snapshot and two line feeds, whatever
    records the archive held before, when the dump has no header line,
    the old content is empty or ends in a line feed, gzip members
    concatenate and the text layer returns the new content as it is. *)
Theorem snapshot_then_restore (db_path dump_path target : Path)
    (w w1 : World) (old dump_bytes : bytes) :
  optimize_and_dump gz E db_path w = (Ret (Some dump_path), w1) ->
  dump (oracle E db_path) = DumpOk dump_bytes ->
  Forall (fun line => first_nonspace line <> Some 123) (split_nl dump_bytes) ->
  (forall a o mtime x,
      gunzip gz a = Some o ->
      gunzip gz (a ++ gz_member gz mtime x) = Some (o ++ x)) ->
  gunzip gz (default [] (fs w !! abspath (cwd w) dump_path)) = Some old ->
  old = [] \/ (exists p, old = p ++ [LF]) ->
  (forall size,
      decode_text gz
        (old ++ framed (json_dumps (metadata (now (oracle E db_path))
                                             db_path size)) dump_bytes)
      = Some (old ++ framed (json_dumps (metadata (now (oracle E db_path))
                                                  db_path size)) dump_bytes)) ->
  replay_connect_raises (replay E target) = false ->
  exists evs,
    events (snd (restore_latest gz E dump_path target w1))
    = events w1 ++ ExecuteScript target (dump_bytes ++ [LF; LF]) :: evs.
Proof.
  intros Hrun Hdump Hbody Hcat Hold Hend Hdec Hconn.
  destruct (returned_archive _ _ _ _ Hrun) as (Hsuf & Hcwd & Hcyc).
  inversion Hcyc as [| | | d b mtime comp action _ Hd Hb Happ _]; subst.
  rewrite Hdump in Hd. injection Hd as <-.
  assert (Hfile : fs w1 !! abspath (cwd w1) dump_path
                  = fs w1 !! abspath (cwd w) dump_path) by (now rewrite Hcwd).
  rewrite Happ in Hfile.
  destruct (restore_latest_replays gz E dump_path target w1 _ _ _
              Hfile (Hcat _ _ _ _ Hold) (Hdec _) Hconn) as [evs Hev].
  exists evs. rewrite Hev. do 3 f_equal.
  apply sql_dump_of_last_record; try assumption.
  - apply printable_no_LF, json_dumps_printable.
  - reflexivity.
  - now apply List.Forall_forall.
Qed.

End Roundtrip.

Lemma snapshot_then_restore_witness :
  exists evs,
    events (snd (restore_latest stored calm archive0 target0 world2))
    = events world2 ++ ExecuteScript target0 (dump0 ++ [LF; LF]) :: evs.
Proof.
  apply (snapshot_then_restore stored calm db0 archive0 target0 world1 world2
           (framed meta0 dump0) dump0).
  - vm_compute. reflexivity.
  - reflexivity.
  - vm_compute. repeat constructor; discriminate.
  - intros a o mtime x [= ->]. reflexivity.
  - vm_compute. reflexivity.
  - right. exists (meta0 ++ LF :: dump0 ++ [LF]). vm_compute. reflexivity.
  - reflexivity.
  - reflexivity.
Defined.

(** ** [restore_latest] and [main] as a whole *)

Section Restore.

Context (gz : Codec) (E : Env).




End Restore.

(** ** [optimize_and_dump] and the files around it *)

Section Files.

Context (gz : Codec) (E : Env).

(** X9.  One call of [optimize_and_dump] writes at most the database, the
    temporary file (under the two names lines 65 and 67 use) and the
    archive; every other file and the working directory are as before,
    however the call ends. *)
Theorem snapshot_writes_only_its_files (db_path : Path) (w : World) (k : str) :
  ~ In k (snapshot_keys (cwd w) db_path) ->
  fs (snd (optimize_and_dump gz E db_path w)) !! k = fs w !! k
  /\ cwd (snd (optimize_and_dump gz E db_path w)) = cwd w.
Proof.
  intros Hk. unfold snapshot_keys in Hk. rewrite in_app_iff in Hk.
  destruct (fs w !! abspath (cwd w) db_path) as [b0|] eqn:Hdb.
  - destruct (with_suffix db_path (lit ".sql.gz")) as [dump_path|] eqn:Hsuf.
    + rewrite (optimize_and_dump_present gz E _ _ _ _ Hdb Hsuf).
      destruct (compactor_effect (oracle E db_path) db_path w)
        as (r & w1 & -> & (Hc1 & _ & Hf1) & _).
      assert (H1 : fs w1 !! k = fs w !! k) by (apply Hf1; tauto).
      destruct r as [[]|e].
      * destruct (dump_and_append_effect gz (oracle E db_path) db_path
                    dump_path w1) as (r2 & w2 & -> & Hc2 & Hf2 & _).
        assert (H2 : fs w2 !! k = fs w !! k).
        { rewrite Hf2; [exact H1|]. rewrite Hc1. intros ->. apply Hk. right.
          now left. }
        destruct r2 as [p|[]]; cbn [snd logged emit fs cwd];
          (split; [exact H2 | congruence]).
      * destruct e; cbn [snd logged emit fs cwd]; (split; [exact H1 | exact Hc1]).
    + unfold optimize_and_dump.
      rewrite (bind_Ret _ _ _ _ _ (exists_present _ _ _ Hdb)). cbn [negb].
      rewrite Hsuf. split; reflexivity.
  - rewrite optimize_and_dump_absent by assumption. split; reflexivity.
Qed.

(** X10.  The archive is none of the files the Compactor writes: it differs
    from the database, from the temporary file and from the file that
    [VACUUM INTO] creates, in every working directory. *)
Theorem archive_is_no_compaction_file (cwd db_path dump_path : Path) :
  with_suffix db_path (lit ".sql.gz") = Some dump_path ->
  abspath cwd dump_path <> abspath cwd db_path
  /\ forall temp_file,
      with_suffix db_path (lit ".vacuuming") = Some temp_file ->
      abspath cwd dump_path <> abspath cwd temp_file
      /\ abspath cwd dump_path <> abspath cwd (path_name temp_file).
Proof.
  intros Hsuf. split; [now apply archive_not_database|].
  intros temp_file Htemp. split.
  - now apply (archive_not_temp_file cwd db_path).
  - now apply (archive_not_temp_name cwd db_path).
Qed.

(** X11.  Run from a directory other than that of the database, with no
    temporary file anywhere: [VACUUM INTO] writes its copy into the
    working directory, the rename of line 67 does not find it, the
    in-place [VACUUM] meets a closed connection; the database is left as
    it was and the copy stays in the working directory. *)
Theorem compaction_from_other_directory (o : Oracle) (db_path temp_file : Path)
    (w : World) (b0 image : bytes) :
  with_suffix db_path (lit ".vacuuming") = Some temp_file ->
  abspath (cwd w) (path_name temp_file) <> abspath (cwd w) temp_file ->
  fs w !! abspath (cwd w) db_path = Some b0 ->
  fs w !! abspath (cwd w) (path_name temp_file) = None ->
  fs w !! abspath (cwd w) temp_file = None ->
  vacuum_into o = Some image ->
  close_raises o = false ->
  exists w',
    compact o db_path w = (Ret tt, w')
    /\ fs w' !! abspath (cwd w) db_path = Some b0
    /\ fs w' !! abspath (cwd w) (path_name temp_file) = Some image
    /\ fs w' !! abspath (cwd w) temp_file = None.
Proof.
  intros Hsuf Hdiff Hdb Hname Htemp Hv Hc.
  assert (Hne : abspath (cwd w) (path_name temp_file) <> abspath (cwd w) db_path)
    by congruence.
  unfold compact, execute_vacuum_into, execute_vacuum. rewrite Hsuf.
  run_step. rewrite Hname, Hv. run_step. rewrite Hc. run_step.
  rewrite lookup_insert_ne, Htemp by assumption. run_step.
  eexists. split; [reflexivity|]. cbn [fs].
  rewrite lookup_insert_eq, !lookup_insert_ne, Hdb, Htemp by congruence.
  repeat split.
Qed.

(** X12.  Run from another directory while a temporary file of an earlier
    run lies beside the database: the rename of line 67 moves that old
    file over the database, and the fresh copy stays in the working
    directory. *)
Theorem stale_temp_file_replaces_database (o : Oracle)
    (db_path temp_file : Path) (w : World) (stale image : bytes) :
  with_suffix db_path (lit ".vacuuming") = Some temp_file ->
  abspath (cwd w) (path_name temp_file) <> abspath (cwd w) temp_file ->
  abspath (cwd w) (path_name temp_file) <> abspath (cwd w) db_path ->
  fs w !! abspath (cwd w) (path_name temp_file) = None ->
  fs w !! abspath (cwd w) temp_file = Some stale ->
  vacuum_into o = Some image ->
  close_raises o = false ->
  replace_raises o = false ->
  exists w',
    compact o db_path w = (Ret tt, w')
    /\ fs w' !! abspath (cwd w) db_path = Some stale
    /\ fs w' !! abspath (cwd w) (path_name temp_file) = Some image.
Proof.
  intros Hsuf Hdiff Hne Hname Htemp Hv Hc Hr.
  unfold compact, execute_vacuum_into, execute_vacuum. rewrite Hsuf.
  run_step. rewrite Hname, Hv. run_step. rewrite Hc. run_step.
  rewrite lookup_insert_ne, Htemp by assumption. rewrite Hr. run_step.
  destruct (reconnect_raises o); run_step;
    eexists; (split; [reflexivity|]); cbn [fs];
    rewrite lookup_insert_eq, lookup_insert_ne, lookup_delete_ne,
      lookup_insert_eq by congruence; split; reflexivity.
Qed.

End Files.

Lemma snapshot_writes_only_its_files_witness :
  fs (snd (optimize_and_dump stored dump_fails db0 two_databases)) !! db2
  = fs two_databases !! db2
  /\ cwd (snd (optimize_and_dump stored dump_fails db0 two_databases))
     = cwd two_databases.
Proof.
  apply (snapshot_writes_only_its_files stored dump_fails db0 two_databases db2).
  vm_compute. intuition discriminate.
Defined.

Lemma archive_is_no_compaction_file_witness :
  abspath (lit "/elsewhere") archive0 <> abspath (lit "/elsewhere") db0
  /\ forall temp_file,
      with_suffix db0 (lit ".vacuuming") = Some temp_file ->
      abspath (lit "/elsewhere") archive0 <> abspath (lit "/elsewhere") temp_file
      /\ abspath (lit "/elsewhere") archive0
         <> abspath (lit "/elsewhere") (path_name temp_file).
Proof.
  apply (archive_is_no_compaction_file (lit "/elsewhere") db0 archive0).
  vm_compute. reflexivity.
Defined.

Lemma compaction_from_other_directory_witness :
  exists w',
    compact (oracle0 false false (DumpOk dump0)) db0 other_directory
    = (Ret tt, w')
    /\ fs w' !! db0 = Some image0
    /\ fs w' !! lit "/elsewhere/database.vacuuming" = Some compacted0
    /\ fs w' !! temp0 = None.
Proof.
  apply (compaction_from_other_directory (oracle0 false false (DumpOk dump0))
           db0 temp0 other_directory image0 compacted0).
  - vm_compute. reflexivity.
  - vm_compute. discriminate.
  - vm_compute. reflexivity.
  - vm_compute. reflexivity.
  - vm_compute. reflexivity.
  - reflexivity.
  - reflexivity.
Defined.

Lemma stale_temp_file_replaces_database_witness :
  exists w',
    compact (oracle0 false false (DumpOk dump0)) db0 other_directory_stale
    = (Ret tt, w')
    /\ fs w' !! db0 = Some stale0
    /\ fs w' !! lit "/elsewhere/database.vacuuming" = Some compacted0.
Proof.
  apply (stale_temp_file_replaces_database
           (oracle0 false false (DumpOk dump0)) db0 temp0
           other_directory_stale stale0 compacted0).
  - vm_compute. reflexivity.
  - vm_compute. discriminate.
  - vm_compute. discriminate.
  - vm_compute. reflexivity.
  - vm_compute. reflexivity.
  - reflexivity.
  - reflexivity.
  - reflexivity.
Defined.

(** ** The run over the configured databases *)

Section Run.

Context (gz : Codec) (E : Env).

(** X15.  When none of the configured databases exists, [main] without
    arguments changes nothing, prints that there is nothing to snapshot
    and returns 0. *)
Theorem no_database_no_change (ROOT : Path) (names : list str) (argv0 : str)
    (w : World) :
  Forall (fun n => fs w !! abspath (cwd w) (joinpath ROOT n) = None) names ->
  main_with gz E names ROOT [argv0] w = (Ret 0%Z, logged PrintNoDatabases w).
Proof.
  intros Habs.
  assert (Hloop : forall produced,
             snapshot_loop gz E ROOT names produced w = (Ret produced, w)).
  { induction Habs as [|n names Hn _ IH]; intros produced; [reflexivity|].
    cbn [snapshot_loop].
    rewrite (bind_Ret _ _ _ _ _ (optimize_and_dump_absent gz E _ _ Hn)).
    apply IH. }
  unfold main_with, snapshot_all. cbn [length Nat.ltb Nat.leb].
  now rewrite (bind_Ret _ _ _ _ _ (Hloop [])).
Qed.

Lemma snapshot_loop_produced (ROOT : Path) (names : list str)
    (acc produced : list Path) (w w' : World) :
  snapshot_loop gz E ROOT names acc w = (Ret produced, w') ->
  exists l, produced = acc ++ l /\ sublist l (omap (archive_of ROOT) names).
Proof.
  revert acc w. induction names as [|n names IH]; intros acc w Hrun.
  - injection Hrun as <- <-. exists []. now rewrite app_nil_r.
  - cbn [snapshot_loop] in Hrun. unfold bind in Hrun.
    destruct (optimize_and_dump gz E (joinpath ROOT n) w)
      as [[[p|]|e] w1] eqn:Hcall; [| |discriminate].
    + apply returned_archive in Hcall as (Hsuf & _).
      destruct (IH _ _ Hrun) as (l & -> & Hsub).
      exists (p :: l). rewrite <- app_assoc. split; [reflexivity|].
      change (omap (archive_of ROOT) (n :: names))
        with (match archive_of ROOT n with
              | Some y => y :: omap (archive_of ROOT) names
              | None => omap (archive_of ROOT) names
              end).
      unfold archive_of at 1. rewrite Hsuf.
      now apply sublist_skip.
    + destruct (IH _ _ Hrun) as (l & -> & Hsub).
      exists l. split; [reflexivity|].
      change (omap (archive_of ROOT) (n :: names))
        with (match archive_of ROOT n with
              | Some y => y :: omap (archive_of ROOT) names
              | None => omap (archive_of ROOT) names
              end).
      destruct (archive_of ROOT n); [now apply sublist_cons | exact Hsub].
Qed.

(** X16.  The archives that the loop of [main] collects are archives of the
    configured names, each at most once and in the order of the list; so
    the number in the summary is at most the number of names. *)
Theorem produced_are_archives_in_order (ROOT : Path) (names : list str)
    (w : World) :
  Forall (fun n => path_name (joinpath ROOT n) <> []) names ->
  exists produced w',
    snapshot_loop gz E ROOT names [] w = (Ret produced, w')
    /\ sublist produced (omap (archive_of ROOT) names)
    /\ (length produced <= length names)%nat.
Proof.
  intros Hnames.
  destruct (snapshot_loop_returns gz E ROOT names [] w Hnames)
    as (produced & w' & _ & Hl & _).
  exists produced, w'. split; [exact Hl|].
  destruct (snapshot_loop_produced _ _ _ _ _ _ Hl) as (l & -> & Hsub).
  cbn [app]. split; [exact Hsub|].
  apply sublist_length in Hsub. etransitivity; [exact Hsub|].
  clear. induction names as [|n names IH]; [reflexivity|].
  change (omap (archive_of ROOT) (n :: names))
    with (match archive_of ROOT n with
          | Some y => y :: omap (archive_of ROOT) names
          | None => omap (archive_of ROOT) names
          end).
  destruct (archive_of ROOT n); cbn [length]; lia.
Qed.



End Run.

Lemma no_database_no_change_witness :
  main_with stored calm DB_FILES (lit "/r") [lit "snap.py"] empty_world
  = (Ret 0%Z, logged PrintNoDatabases empty_world).
Proof.
  apply (no_database_no_change stored calm (lit "/r") DB_FILES (lit "snap.py")
           empty_world).
  repeat constructor.
Defined.

Lemma produced_are_archives_in_order_witness :
  exists produced w',
    snapshot_loop stored first_dump_fails (lit "/r") DB_FILES [] two_databases
    = (Ret produced, w')
    /\ sublist produced (omap (archive_of (lit "/r")) DB_FILES)
    /\ (length produced <= length DB_FILES)%nat.
Proof.
  apply (produced_are_archives_in_order stored first_dump_fails (lit "/r")
           DB_FILES two_databases).
  repeat constructor; vm_compute; discriminate.
Defined.


(** With a container that is longer than its content, the first snapshot
    of a database creates the archive and reports it as updated. *)
Example first_snapshot_reported_as_updated :
  fs world0 !! archive0 = None
  /\ events (snd (optimize_and_dump headed calm db0 world0))
     = [RunDump db0;
        PrintSnapshot Updated (lit "database.sql.gz") 4 146].
Proof. split; vm_compute; reflexivity. Qed.


(** X4.  A line of the last dump body whose first character that is not
    white space is an opening brace is taken for a header: the restore
    then replays only what follows the last such line, and the
    statements before it are lost. *)
Theorem brace_line_in_dump_truncates_restore (before : str)
    (meta body1 brace_line body2 : str) :
  ~ In LF brace_line ->
  first_nonspace brace_line = Some 123 ->
  Forall (fun line => first_nonspace line <> Some 123) (split_nl body2) ->
  sql_dump_of (before ++ framed meta (body1 ++ LF :: brace_line ++ LF :: body2))
  = body2 ++ [LF; LF].
Proof.
  intros Hline Hhead Hbody.
  replace (before ++ framed meta (body1 ++ LF :: brace_line ++ LF :: body2))
    with ((before ++ meta ++ LF :: body1 ++ [LF]) ++ framed brace_line body2).
  - apply sql_dump_of_last_record; try assumption.
    + right. exists (before ++ meta ++ LF :: body1).
      repeat first [rewrite <- app_assoc | progress cbn [app]]. reflexivity.
    + now apply List.Forall_forall.
  - unfold framed.
    repeat first [rewrite <- app_assoc | progress cbn [app]]. reflexivity.
Qed.

Lemma brace_line_in_dump_truncates_restore_witness :
  sql_dump_of
    (framed meta0 dump0
     ++ framed meta0 (lit "INSERT INTO t VALUES(1,'a" ++ LF
                      :: lit "  {b}');" ++ LF :: lit "COMMIT;"))
  = lit "COMMIT;" ++ [LF; LF].
Proof.
  apply (brace_line_in_dump_truncates_restore (framed meta0 dump0) meta0
           (lit "INSERT INTO t VALUES(1,'a") (lit "  {b}');") (lit "COMMIT;")).
  - vm_compute. intuition discriminate.
  - reflexivity.
  - vm_compute. repeat constructor; discriminate.
Defined.

Section Logged.

Context (gz : Codec) (E : Env).

(** X13.  On an existing database with a file name, [optimize_and_dump]
    returns [None] only after an error message and the archive only after
    the snapshot message: the last event always tells how the call ended. *)
Theorem outcome_is_logged (db_path dump_path : Path) (w : World) (b0 : bytes) :
  fs w !! abspath (cwd w) db_path = Some b0 ->
  with_suffix db_path (lit ".sql.gz") = Some dump_path ->
  exists out w',
    optimize_and_dump gz E db_path w = (Ret out, w')
    /\ match out with
       | None =>
           last (events w') = Some (PrintErrorDumping db_path)
           \/ last (events w') = Some (PrintUnexpected db_path)
       | Some p =>
           p = dump_path
           /\ exists action orig comp,
               last (events w')
               = Some (PrintSnapshot action (path_name dump_path) orig comp)
       end.
Proof.
  intros Hdb Hsuf.
  destruct (optimize_and_dump_cycle gz E _ _ _ _ Hdb Hsuf)
    as (out & w' & Hrun & _ & Hcyc).
  exists out, w'. split; [exact Hrun|].
  destruct Hcyc as [_ Hev _ | _ _ Hev _ | _ _ Hev _ | d b m comp action _ _ _ _ Hev];
    rewrite Hev.
  - right. now rewrite last_snoc.
  - left. now rewrite last_app.
  - right. now rewrite last_app.
  - split; [reflexivity|]. eexists _, _, _. now rewrite last_app.
Qed.

End Logged.

Lemma outcome_is_logged_witness :
  exists out w',
    optimize_and_dump stored connect_fails db0 world0 = (Ret out, w')
    /\ match out with
       | None =>
           last (events w') = Some (PrintErrorDumping db0)
           \/ last (events w') = Some (PrintUnexpected db0)
       | Some p =>
           p = archive0
           /\ exists action orig comp,
               last (events w')
               = Some (PrintSnapshot action (path_name archive0) orig comp)
       end.
Proof.
  apply (outcome_is_logged stored connect_fails db0 archive0 world0 image0).
  - vm_compute. reflexivity.
  - vm_compute. reflexivity.
Defined.

Section NoRollback.

Context (gz : Codec) (E : Env).

(** Lines 63-69 when every call succeeds: the copy replaces the database. *)
Lemma compact_renames (o : Oracle) (db_path temp_file : Path) (w : World)
    (image : bytes) :
  with_suffix db_path (lit ".vacuuming") = Some temp_file ->
  abspath (cwd w) (path_name temp_file) = abspath (cwd w) temp_file ->
  abspath (cwd w) temp_file <> abspath (cwd w) db_path ->
  fs w !! abspath (cwd w) temp_file = None ->
  vacuum_into o = Some image ->
  close_raises o = false ->
  replace_raises o = false ->
  exists w',
    compact o db_path w = (Ret tt, w')
    /\ cwd w' = cwd w /\ events w' = events w
    /\ fs w' !! abspath (cwd w) db_path = Some image
    /\ fs w' !! abspath (cwd w) temp_file = None
    /\ forall k, k <> abspath (cwd w) db_path ->
                 k <> abspath (cwd w) temp_file -> fs w' !! k = fs w !! k.
Proof.
  intros Hsuf Hsame Hne Hnone Hv Hcl Hrp.
  unfold compact, execute_vacuum_into, execute_vacuum. rewrite Hsuf.
  run_step. rewrite Hsame, Hnone, Hv. run_step. rewrite Hcl. run_step.
  rewrite ?Hsame, lookup_insert_eq, Hrp. run_step.
  destruct (reconnect_raises o); run_step;
    eexists; (split; [reflexivity|]); cbn [fs cwd events];
    rewrite ?Hsame; repeat split;
    try (now simplify_map_eq);
    intros k Hk1 Hk2; now simplify_map_eq.
Qed.

(** X18.  The compaction is not undone when the dump fails: run in the
    directory of the database with no temporary file left, when the
    compaction by [VACUUM INTO] and rename goes through and the dump
    command then exits with an error, the call returns [None], the
    archive is as before, and the database file is the compacted copy. *)
Theorem failed_dump_keeps_compaction (db_path dump_path temp_file : Path)
    (w : World) (b0 image : bytes) :
  fs w !! abspath (cwd w) db_path = Some b0 ->
  with_suffix db_path (lit ".sql.gz") = Some dump_path ->
  with_suffix db_path (lit ".vacuuming") = Some temp_file ->
  abspath (cwd w) (path_name temp_file) = abspath (cwd w) temp_file ->
  fs w !! abspath (cwd w) temp_file = None ->
  compactor_passes (oracle E db_path) ->
  vacuum_into (oracle E db_path) = Some image ->
  close_raises (oracle E db_path) = false ->
  replace_raises (oracle E db_path) = false ->
  dump (oracle E db_path) = DumpFailed ->
  exists w',
    optimize_and_dump gz E db_path w = (Ret None, w')
    /\ fs w' !! abspath (cwd w) db_path = Some image
    /\ fs w' !! abspath (cwd w) temp_file = None
    /\ fs w' !! abspath (cwd w) dump_path = fs w !! abspath (cwd w) dump_path.
Proof.
  intros Hdb Hsuf Htmp Hsame Hnone (Hc & Hcm & Hfc) Hv Hcl Hrp Hd.
  assert (Hne : abspath (cwd w) temp_file <> abspath (cwd w) db_path)
    by congruence.
  pose proof (archive_not_database (cwd w) _ _ Hsuf) as Hadb.
  pose proof (archive_not_temp_file (cwd w) _ _ _ Hsuf Htmp) as Hatmp.
  rewrite (optimize_and_dump_present gz E _ _ _ _ Hdb Hsuf).
  unfold compactor. rewrite Hc, Hcm, Hfc.
  cbv beta iota delta [bind may_raise ret set_con_open].
  cbn [fs cwd con_open events].
  destruct (plan_refresh_effect (oracle E db_path) db_path
              {| fs := fs w; cwd := cwd w; con_open := true;
                 events := events w |})
    as (w1 & -> & (Hc1 & He1 & Hf1) & _).
  cbn [cwd fs] in Hc1, Hf1.
  assert (Ht1 : fs w1 !! abspath (cwd w) temp_file = None).
  { rewrite Hf1; [exact Hnone|]. cbn [In]. intuition congruence. }
  destruct (compact_renames (oracle E db_path) db_path temp_file w1 image)
    as (w2 & -> & Hc2 & He2 & Hdb2 & Htmp2 & Hf2);
    rewrite ?Hc1; try assumption.
  rewrite Hc1 in Hdb2, Htmp2, Hf2.
  unfold dump_and_append, check_output_dump. rewrite Hd. run_step.
  unfold logged. cbn [snd emit fs].
  eexists. split; [reflexivity|]. cbn [fs].
  split; [exact Hdb2|]. split; [exact Htmp2|].
  rewrite Hf2 by assumption. apply Hf1. cbn [In]. intuition congruence.
Qed.

End NoRollback.

Lemma failed_dump_keeps_compaction_witness :
  exists w',
    optimize_and_dump stored dump_fails db0 world0 = (Ret None, w')
    /\ fs w' !! abspath (cwd world0) db0 = Some compacted0
    /\ fs w' !! abspath (cwd world0) temp0 = None
    /\ fs w' !! abspath (cwd world0) archive0
       = fs world0 !! abspath (cwd world0) archive0.
Proof.
  apply (failed_dump_keeps_compaction stored dump_fails db0 archive0 temp0
           world0 image0 compacted0).
  - vm_compute. reflexivity.
  - vm_compute. reflexivity.
  - vm_compute. reflexivity.
  - vm_compute. reflexivity.
  - vm_compute. reflexivity.
  - repeat split; reflexivity.
  - reflexivity.
  - reflexivity.
  - reflexivity.
  - reflexivity.
Defined.
